(** * genesis_reconstruction.py: the phase execution and reporting engine

    A shallow embedding of [GenesisBootstrap.execute_phase],
    [phase_11_self_test] and the orchestration loop of [main], together
    with the properties of the run that the specification states.

    Modelling decisions.
    - A phase action is opaque to the engine: it is a function from the
      file system to an outcome (a returned value or a raised exception)
      and a new file system.
    - An exception is known by the two things the engine observes of it:
      whether it is an instance of [Exception] (what [except Exception]
      tests) and its [str].
    - [datetime.now()] reads a clock held in the state; every call
      consumes one reading.  Instants are microseconds; a duration in
      milliseconds is the exact quotient (the source computes it in
      floating point).
    - Dictionaries are finite maps with string keys.
    - Console and logger output is presentation and is not modelled; the
      values printed in the final summary are the result of [main]. *)

From stdpp Require Import base strings gmap list.
From Stdlib Require Import Ascii ZArith QArith Sorted.

Local Open Scope string_scope.
Local Open Scope list_scope.
Local Open Scope Z_scope.

(** ** Configuration and constants *)

Inductive Phase :=
| INITIALIZATION | FILESYSTEM | CONFIG_MGMT | LOGGING | DATABASE
| ANALYZER | QUALITY_GATES | AI_COMMANDER | ORCHESTRATOR | AGENTS
| TOOL_REGISTRY | INJECTION_ENGINE | MIGRATION | DASHBOARD | SELF_TEST.

(** [phase.value] *)
Definition Phase_value (p : Phase) : Z :=
  match p with
  | INITIALIZATION => 1 | FILESYSTEM => 2 | CONFIG_MGMT => 3
  | LOGGING => 4 | DATABASE => 5 | ANALYZER => 6
  | QUALITY_GATES => 7 | AI_COMMANDER => 8 | ORCHESTRATOR => 9
  | AGENTS => 10 | TOOL_REGISTRY => 11 | INJECTION_ENGINE => 12
  | MIGRATION => 13 | DASHBOARD => 14 | SELF_TEST => 15
  end.

(** [phase.name] *)
Definition Phase_name (p : Phase) : string :=
  match p with
  | INITIALIZATION => "INITIALIZATION" | FILESYSTEM => "FILESYSTEM"
  | CONFIG_MGMT => "CONFIG_MGMT" | LOGGING => "LOGGING"
  | DATABASE => "DATABASE" | ANALYZER => "ANALYZER"
  | QUALITY_GATES => "QUALITY_GATES" | AI_COMMANDER => "AI_COMMANDER"
  | ORCHESTRATOR => "ORCHESTRATOR" | AGENTS => "AGENTS"
  | TOOL_REGISTRY => "TOOL_REGISTRY"
  | INJECTION_ENGINE => "INJECTION_ENGINE" | MIGRATION => "MIGRATION"
  | DASHBOARD => "DASHBOARD" | SELF_TEST => "SELF_TEST"
  end.

Inductive Status := PENDING | RUNNING | SUCCESS | WARNING | ERROR | SKIPPED.

(** [status.value]: the glyph attached to each member. *)
Definition Status_value (s : Status) : string :=
  match s with
  | PENDING => "⏳" | RUNNING => "🔄" | SUCCESS => "✅"
  | WARNING => "⚠️" | ERROR => "❌" | SKIPPED => "⊘"
  end.

(** Values stored in the per-phase dictionaries of the report. *)
Inductive JVal :=
| JStr (s : string)
| JFloat (q : Q)
| JIso (instant : Z)   (* [t.isoformat()] of the instant [t] *).

Module ExecutionLog.
Record t := mk {
  timestamp : Z;                 (* [datetime.now().isoformat()] *)
  phase : string;
  status : string;
  message : string;
  duration_ms : Q;
  errors : option (list string)  (* [None] is the dataclass default *)
}.
End ExecutionLog.

(** ** Python values and exceptions, as far as the engine observes them *)

Inductive PyValue :=
| PyNone | PyBool (b : bool) | PyInt (z : Z) | PyStr (s : string).

Record PyExc := {
  exc_class : string;
  exc_is_Exception : bool;   (* [isinstance(e, Exception)] *)
  exc_str : string           (* [str(e)] *)
}.

Inductive Outcome :=
| Returns (result : PyValue)
| Raises (e : PyExc).

(** ** Bootstrap system *)

Module Report.
Record t := mk {
  start_time : Z;
  phases : gmap string (gmap string JVal);
  metrics : gmap string JVal;
  end_time : option Z;
  success_count : option nat;
  total_phases : option nat
}.
End Report.

Module GenesisBootstrap.
Record t := mk {
  base_path : string;
  timestamp : Z;
  logs : list ExecutionLog.t;
  execution_report : Report.t
}.
End GenesisBootstrap.

(** The world the run lives in: the bootstrap object, the set of paths
    that exist, and the clock. *)
Record State := {
  self : GenesisBootstrap.t;
  fs : gset string;
  clock : nat -> Z;
  ticks : nat
}.

Definition Action := gset string -> Outcome * gset string.

(** *** A state monad with exceptions *)

Inductive Res (A : Type) :=
| Val (a : A)
| Exn (e : PyExc).
Arguments Val {A} a.
Arguments Exn {A} e.

Definition M (A : Type) := State -> Res A * State.

Definition ret {A} (a : A) : M A := fun st => (Val a, st).

Definition bind {A B} (m : M A) (k : A -> M B) : M B :=
  fun st =>
    match m st with
    | (Val a, st') => k a st'
    | (Exn e, st') => (Exn e, st')
    end.

Definition raise {A} (e : PyExc) : M A := fun st => (Exn e, st).

Notation "'do' x <- m ; k" := (bind m (fun x => k))
  (at level 10, x name, m at level 100, k at level 200).
Notation "'do_' m ; k" := (bind m (fun _ => k))
  (at level 10, m at level 100, k at level 200).

(** [datetime.now()] *)
Definition now : M Z :=
  fun st =>
    (Val (clock st (ticks st)),
     {| self := self st; fs := fs st; clock := clock st;
        ticks := S (ticks st) |}).

(** [await executor_func()], with the outcome reified so that the caller
    can dispatch on it as the [try] statement does. *)
Definition await (executor_func : Action) : M Outcome :=
  fun st =>
    let '(o, fs') := executor_func (fs st) in
    (Val o,
     {| self := self st; fs := fs'; clock := clock st; ticks := ticks st |}).

Definition modify_self (f : GenesisBootstrap.t -> GenesisBootstrap.t) : M unit :=
  fun st =>
    (Val tt,
     {| self := f (self st); fs := fs st; clock := clock st;
        ticks := ticks st |}).

(** [self.logs.append(log)] *)
Definition logs_append (log : ExecutionLog.t) : M unit :=
  modify_self (fun b =>
    GenesisBootstrap.mk (GenesisBootstrap.base_path b)
      (GenesisBootstrap.timestamp b)
      (GenesisBootstrap.logs b ++ [log])
      (GenesisBootstrap.execution_report b)).

Definition modify_report (f : Report.t -> Report.t) : M unit :=
  modify_self (fun b =>
    GenesisBootstrap.mk (GenesisBootstrap.base_path b)
      (GenesisBootstrap.timestamp b)
      (GenesisBootstrap.logs b)
      (f (GenesisBootstrap.execution_report b))).

(** [self.execution_report["phases"][name] = entry] *)
Definition report_set_phase (name : string) (entry : gmap string JVal) : M unit :=
  modify_report (fun r =>
    Report.mk (Report.start_time r)
      (<[name := entry]> (Report.phases r))
      (Report.metrics r) (Report.end_time r)
      (Report.success_count r) (Report.total_phases r)).

(** [(t1 - t0).total_seconds() * 1000] *)
Definition elapsed_ms (t0 t1 : Z) : Q := Qmake (t1 - t0) 1000.

Definition execute_phase (phase : Phase) (executor_func : Action) : M bool :=
  do start_time <- now;
  do outcome <- await executor_func;
  match outcome with
  | Returns result =>
      do t1 <- now;
      let duration := elapsed_ms start_time t1 in
      do t2 <- now;
      let log := ExecutionLog.mk t2 (Phase_name phase)
                   (Status_value SUCCESS)
                   "Phase erfolgreich abgeschlossen"
                   duration None in
      do_ logs_append log;
      do_ report_set_phase (Phase_name phase)
            (<["status" := JStr "SUCCESS"]>
             (<["duration_ms" := JFloat duration]>
              (<["timestamp" := JIso start_time]> ∅)));
      ret true
  | Raises e =>
      if exc_is_Exception e then
        do t1 <- now;
        let duration := elapsed_ms start_time t1 in
        do t2 <- now;
        let log := ExecutionLog.mk t2 (Phase_name phase)
                     (Status_value ERROR)
                     ("Fehler: " +:+ exc_str e)
                     duration (Some [exc_str e]) in
        do_ logs_append log;
        do_ report_set_phase (Phase_name phase)
              (<["status" := JStr "ERROR"]>
               (<["error" := JStr (exc_str e)]>
                (<["duration_ms" := JFloat duration]> ∅)));
        ret false
      else raise e
  end.

(** ** The self-test *)

(** [Path(base_path)]: a leading [./] is dropped. *)
Definition Path (s : string) : string :=
  match s with
  | String "."%char (String "/"%char rest) => rest
  | _ => s
  end.

(** [parent / child] *)
Definition joinpath (parent child : string) : string :=
  parent +:+ "/" +:+ child.
Infix "//" := joinpath (at level 40, left associativity).

(** [path.exists()] *)
Definition path_exists (files : gset string) (path : string) : bool :=
  bool_decide (path ∈ files).

(** The [checks] dictionary of [phase_11_self_test], in insertion order. *)
Definition self_test_checks (base_path : string) (files : gset string)
  : list (string * bool) :=
  [ ("Verzeichnisstruktur", path_exists files (base_path // "core"));
    ("Konfiguration", path_exists files (base_path // "core" // "config.py"));
    ("Logger",
      path_exists files
        (base_path // "shared" // "logger" // "structured_logger.py"));
    ("ORM-Modelle",
      path_exists files (base_path // "shared" // "database" // "models.py"));
    ("AST-Analyzer", path_exists files (base_path // "core" // "analyzer.py"));
    ("DCI", path_exists files (base_path // "core" // "dci.py"));
    ("AI-Commander",
      path_exists files (base_path // "core" // "ai_commander.py"));
    ("Orchestrator",
      path_exists files (base_path // "core" // "orchestrator.py"));
    ("Injektions-Engine",
      path_exists files (base_path // "core" // "injection_engine.py"));
    ("API-Server", path_exists files (base_path // "api" // "server.py")) ].

(** The loop [for check_name, result in checks.items()]. *)
Fixpoint all_checks (checks : list (string * bool)) (all_passed : bool) : bool :=
  match checks with
  | [] => all_passed
  | (check_name, result) :: rest => all_checks rest (all_passed && result)
  end.

Definition phase_11_self_test (bootstrap : GenesisBootstrap.t) : Action :=
  fun files =>
    let checks :=
      self_test_checks (GenesisBootstrap.base_path bootstrap) files in
    let all_passed := all_checks checks true in
    (Returns (PyBool all_passed), files).

(** ** Entry point and coordination *)

(** A phase function takes the bootstrap object; the phase functions of
    the source read its [base_path] and its logger and leave its logs and
    report alone, so the object is passed as a value. *)
Definition Executor := GenesisBootstrap.t -> Action.

Definition get_self : M GenesisBootstrap.t := fun st => (Val (self st), st).

(** [for phase, executor in phases: ...], the counter threaded through. *)
Fixpoint for_phases (phases : list (Phase * Executor)) (success_count : nat)
  : M nat :=
  match phases with
  | [] => ret success_count
  | (phase, executor) :: rest =>
      do bootstrap <- get_self;
      do success <- execute_phase phase (executor bootstrap);
      for_phases rest
        (if success : bool then S success_count else success_count)
  end.

(** What the final report prints. *)
Record Summary := {
  phasen_erfolgreich : nat * nat;   (* [success_count/len(phases)] *)
  selbsttest : bool;                (* BESTANDEN / FEHLGESCHLAGEN *)
  gesamtstatus : bool               (* ERFOLGREICH / FEHLGESCHLAGEN *)
}.

(** The body of [main] after the bootstrap object is built, for an
    arbitrary list of phases.  Writing the report file is the persistence
    sink's business and is left out. *)
Definition run (phases : list (Phase * Executor)) : M Summary :=
  do success_count <- for_phases phases 0%nat;
  do bootstrap <- get_self;
  do self_test_success <-
    execute_phase SELF_TEST (phase_11_self_test bootstrap);
  do t <- now;
  do_ modify_report (fun r =>
        Report.mk (Report.start_time r) (Report.phases r) (Report.metrics r)
          (Some t) (Some success_count) (Some (length phases)));
  ret {| phasen_erfolgreich := (success_count, length phases);
         selbsttest := self_test_success;
         gesamtstatus :=
           bool_decide (success_count = length phases) && self_test_success |}.

(** [GenesisBootstrap.__init__]; [setup_logging] creates the log
    directory with its parents. *)
Definition GenesisBootstrap_init (base_path : string)
    (files : gset string) (clk : nat -> Z) : State :=
  let base := Path base_path in
  {| self :=
       GenesisBootstrap.mk base (clk 0%nat) []
         (Report.mk (clk 1%nat) ∅ ∅ None None None);
     fs := {[ base; base // "logs" ]} ∪ files;
     clock := clk;
     ticks := 2 |}.

Section Main.
(** The ten phase functions write templates to storage; the engine does
    not look inside them. *)
Variables phase_1_filesystem_init phase_2_config_management
          phase_3_logging_system phase_4_database_models
          phase_5_ast_analyzer phase_6_dci_validation
          phase_7_ai_commander phase_8_orchestrator
          phase_9_injection_engine phase_10_dashboard_backend : Executor.

Definition main_phases : list (Phase * Executor) :=
  [ (FILESYSTEM, phase_1_filesystem_init);
    (CONFIG_MGMT, phase_2_config_management);
    (LOGGING, phase_3_logging_system);
    (DATABASE, phase_4_database_models);
    (ANALYZER, phase_5_ast_analyzer);
    (QUALITY_GATES, phase_6_dci_validation);
    (AI_COMMANDER, phase_7_ai_commander);
    (ORCHESTRATOR, phase_8_orchestrator);
    (INJECTION_ENGINE, phase_9_injection_engine);
    (DASHBOARD, phase_10_dashboard_backend) ].

Definition main (files : gset string) (clk : nat -> Z)
  : Res Summary * State :=
  run main_phases (GenesisBootstrap_init "./genesis_core" files clk).
End Main.

(** ** The phase functions

    The file system is the set of paths that exist.  Creating a
    directory adds it together with its missing ancestors; writing a file
    needs the file's parent directory to exist and adds the file.  The
    content written is an opaque payload and is not kept.  Failures that
    depend on the operating system alone (permissions, a full disk, a
    file where a directory is expected) are outside this model. *)

(** The proper ancestors of the path [seen ++ rest] that end inside
    [rest], outermost first. *)
Fixpoint path_prefixes (seen rest : string) : list string :=
  match rest with
  | EmptyString => []
  | String c rest' =>
      if Ascii.eqb c "/" then seen :: path_prefixes (seen +:+ "/") rest'
      else path_prefixes (seen +:+ String c EmptyString) rest'
  end.

(** [path.parents] of a relative path, outermost first, the current
    directory left out. *)
Definition Path_parents (path : string) : list string :=
  path_prefixes "" path.

(** [path.parent]; [None] stands for the current directory. *)
Definition Path_parent (path : string) : option string :=
  last (Path_parents path).

(** The error [open] raises when the directory of the file is missing. *)
Definition FileNotFoundError (path : string) : PyExc :=
  {| exc_class := "FileNotFoundError";
     exc_is_Exception := true;
     exc_str := "[Errno 2] No such file or directory: '" +:+ path +:+ "'" |}.

(** [path.mkdir(parents=True, exist_ok=True)] *)
Definition mkdir_parents (path : string) (files : gset string) : gset string :=
  {[ path ]} ∪ list_to_set (Path_parents path) ∪ files.

(** [path.write_text(content)]: the exception raised, if any, and the
    files afterwards. *)
Definition write_text (path : string) (files : gset string)
  : option PyExc * gset string :=
  match Path_parent path with
  | Some directory =>
      if bool_decide (directory ∈ files)
      then (None, {[ path ]} ∪ files)
      else (Some (FileNotFoundError path), files)
  | None => (None, {[ path ]} ∪ files)
  end.

(** [for path in paths: path.write_text(...)], stopping at the first
    exception. *)
Fixpoint write_each (paths : list string) (files : gset string)
  : option PyExc * gset string :=
  match paths with
  | [] => (None, files)
  | path :: rest =>
      match write_text path files with
      | (None, files') => write_each rest files'
      | (Some e, files') => (Some e, files')
      end
  end.

(** The end of every phase function: [return True], unless an exception
    is on its way out. *)
Definition return_True (r : option PyExc * gset string)
  : Outcome * gset string :=
  match r with
  | (None, files) => (Returns (PyBool true), files)
  | (Some e, files) => (Raises e, files)
  end.

Definition phase_1_directories : list string :=
  [ "core"; "api"; "modules"; "shared/database"; "shared/logger";
    "shared/utils"; "expert_tools"; "data/backups"; "data/configs";
    "logs/archive_logs"; "tests/unit"; "tests/integration"; "sandbox";
    "docker"; ".github/workflows" ].

(** The keys of [files_to_create], in insertion order. *)
Definition phase_1_files : list string :=
  [ "requirements.txt"; "pyproject.toml"; ".env.example"; ".gitignore" ].

Definition phase_1_filesystem_init : Executor :=
  fun bootstrap files =>
    let base := GenesisBootstrap.base_path bootstrap in
    let files1 :=
      foldl (fun made directory => mkdir_parents (base // directory) made)
            files phase_1_directories in
    return_True
      (write_each (map (fun filename => base // filename) phase_1_files)
                  files1).

Definition phase_2_config_management : Executor :=
  fun bootstrap files =>
    let config_path :=
      GenesisBootstrap.base_path bootstrap // "core" // "config.py" in
    return_True (write_text config_path files).

Definition phase_3_logging_system : Executor :=
  fun bootstrap files =>
    let logger_path :=
      GenesisBootstrap.base_path bootstrap
        // "shared" // "logger" // "structured_logger.py" in
    return_True (write_text logger_path files).

Definition phase_4_database_models : Executor :=
  fun bootstrap files =>
    let models_path :=
      GenesisBootstrap.base_path bootstrap
        // "shared" // "database" // "models.py" in
    return_True (write_text models_path files).

Definition phase_5_ast_analyzer : Executor :=
  fun bootstrap files =>
    let analyzer_path :=
      GenesisBootstrap.base_path bootstrap // "core" // "analyzer.py" in
    return_True (write_text analyzer_path files).

Definition phase_6_dci_validation : Executor :=
  fun bootstrap files =>
    let dci_path :=
      GenesisBootstrap.base_path bootstrap // "core" // "dci.py" in
    return_True (write_text dci_path files).

Definition phase_7_ai_commander : Executor :=
  fun bootstrap files =>
    let commander_path :=
      GenesisBootstrap.base_path bootstrap // "core" // "ai_commander.py" in
    return_True (write_text commander_path files).

Definition phase_8_orchestrator : Executor :=
  fun bootstrap files =>
    let orchestrator_path :=
      GenesisBootstrap.base_path bootstrap // "core" // "orchestrator.py" in
    return_True (write_text orchestrator_path files).

Definition phase_9_injection_engine : Executor :=
  fun bootstrap files =>
    let injection_path :=
      GenesisBootstrap.base_path bootstrap
        // "core" // "injection_engine.py" in
    return_True (write_text injection_path files).

Definition phase_10_dashboard_backend : Executor :=
  fun bootstrap files =>
    let server_path :=
      GenesisBootstrap.base_path bootstrap // "api" // "server.py" in
    return_True (write_text server_path files).

(** [main] with the phase functions of the source. *)
Definition main_program (files : gset string) (clk : nat -> Z)
  : Res Summary * State :=
  main phase_1_filesystem_init phase_2_config_management
       phase_3_logging_system phase_4_database_models
       phase_5_ast_analyzer phase_6_dci_validation
       phase_7_ai_commander phase_8_orchestrator
       phase_9_injection_engine phase_10_dashboard_backend
       files clk.

(** The phase functions that write a single module: the function, the
    directory of the module below the base path, and its file name. *)
Definition module_phases : list (Executor * string * string) :=
  [ (phase_2_config_management, "core", "config.py");
    (phase_3_logging_system, "shared/logger", "structured_logger.py");
    (phase_4_database_models, "shared/database", "models.py");
    (phase_5_ast_analyzer, "core", "analyzer.py");
    (phase_6_dci_validation, "core", "dci.py");
    (phase_7_ai_commander, "core", "ai_commander.py");
    (phase_8_orchestrator, "core", "orchestrator.py");
    (phase_9_injection_engine, "core", "injection_engine.py");
    (phase_10_dashboard_backend, "api", "server.py") ].

(** The ten phase functions, in the order [main] registers them. *)
Definition phase_functions : list Executor :=
  [ phase_1_filesystem_init; phase_2_config_management;
    phase_3_logging_system; phase_4_database_models;
    phase_5_ast_analyzer; phase_6_dci_validation;
    phase_7_ai_commander; phase_8_orchestrator;
    phase_9_injection_engine; phase_10_dashboard_backend ].

(** The paths one [mkdir] of phase 1 brings into existence. *)
Definition made_by_mkdir (base directory : string) : gset string :=
  {[ base // directory ]} ∪ list_to_set (Path_parents (base // directory)).

(** Everything phase 1 brings into existence below [base]. *)
Definition phase_1_created (base : string) : gset string :=
  list_to_set (map (fun filename => base // filename) phase_1_files)
  ∪ ⋃ (map (made_by_mkdir base) phase_1_directories).

(** A name that is a single path component. *)
Fixpoint no_slash (name : string) : bool :=
  match name with
  | EmptyString => true
  | String c rest => negb (Ascii.eqb c "/") && no_slash rest
  end.

(** The ordinals of the phases a run executes, self-test included. *)
Definition executed_ordinals (phases : list (Phase * Executor)) : list Z :=
  map (fun pe => Phase_value (fst pe)) phases ++ [Phase_value SELF_TEST].

(** ** Sample actions and states used by the examples *)

Definition succeeds (result : PyValue) : Executor :=
  fun _ files => (Returns result, files).

Definition fails (e : PyExc) : Executor :=
  fun _ files => (Raises e, files).

Definition writes (path : string) : Executor :=
  fun bootstrap files =>
    (Returns (PyBool true),
     {[ GenesisBootstrap.base_path bootstrap // path ]} ∪ files).

Definition RuntimeError (msg : string) : PyExc :=
  {| exc_class := "RuntimeError"; exc_is_Exception := true; exc_str := msg |}.

(** [sys.exit(code)] raises [SystemExit], which derives from
    [BaseException] only. *)
Definition SystemExit (code : string) : PyExc :=
  {| exc_class := "SystemExit"; exc_is_Exception := false; exc_str := code |}.

Definition tick_clock (n : nat) : Z := 1000 * Z.of_nat n.

Definition fresh : State := GenesisBootstrap_init "./genesis_core" ∅ tick_clock.

Definition final_logs (r : Res Summary * State) : list ExecutionLog.t :=
  GenesisBootstrap.logs (self (snd r)).

Definition final_report (r : Res Summary * State) : Report.t :=
  GenesisBootstrap.execution_report (self (snd r)).

(** The scenario of the specification: alpha succeeds, beta fails with
    "boom", gamma succeeds (here returning [False]). *)
Definition scenario : list (Phase * Executor) :=
  [ (FILESYSTEM, succeeds PyNone);
    (CONFIG_MGMT, fails (RuntimeError "boom"));
    (LOGGING, succeeds (PyBool false)) ].

(** The scenario split around its failing phase, and the state in which
    that phase starts. *)
Definition scenario_head : list (Phase * Executor) :=
  [ (FILESYSTEM, succeeds PyNone) ].

Definition scenario_tail : list (Phase * Executor) :=
  [ (LOGGING, succeeds (PyBool false)) ].

Definition scenario_reached : State :=
  snd (for_phases scenario_head 0%nat fresh).

Definition scenario_summary : Summary :=
  {| phasen_erfolgreich := (2%nat, 3%nat);
     selbsttest := true; gesamtstatus := false |}.

(** A first phase that calls [sys.exit(1)]. *)
Definition fatal_registry : list (Phase * Executor) :=
  [ (FILESYSTEM, fails (SystemExit "1")); (CONFIG_MGMT, succeeds PyNone) ].

(** A first phase that raises an exception without a message. *)
Definition silent_registry : list (Phase * Executor) :=
  [ (FILESYSTEM, fails (RuntimeError "")); (CONFIG_MGMT, succeeds PyNone) ].

(** A registry that lists the same phase twice. *)
Definition repeated_registry : list (Phase * Executor) :=
  [ (FILESYSTEM, succeeds PyNone);
    (FILESYSTEM, fails (RuntimeError "boom")) ].

(** The registry of [main] with ten actions that do nothing. *)
Definition idle_registry : list (Phase * Executor) :=
  main_phases (succeeds PyNone) (succeeds PyNone) (succeeds PyNone)
    (succeeds PyNone) (succeeds PyNone) (succeeds PyNone)
    (succeeds PyNone) (succeeds PyNone) (succeeds PyNone)
    (succeeds PyNone).

Definition OSError (msg : string) : PyExc :=
  {| exc_class := "OSError"; exc_is_Exception := true; exc_str := msg |}.

(** A run of [main] on an empty disk in which every phase writes its
    artifact except the last, which fails: [api/server.py] is missing
    when the self-test looks for it. *)
Definition main_without_server : Res Summary * State :=
  main (writes "core")
       (writes "core/config.py")
       (writes "shared/logger/structured_logger.py")
       (writes "shared/database/models.py")
       (writes "core/analyzer.py")
       (writes "core/dci.py")
       (writes "core/ai_commander.py")
       (writes "core/orchestrator.py")
       (writes "core/injection_engine.py")
       (fails (OSError "[Errno 28] No space left on device"))
       ∅ tick_clock.

(** ** Observations on states *)

Definition logs_of (st : State) : list ExecutionLog.t :=
  GenesisBootstrap.logs (self st).

Definition report_of (st : State) : Report.t :=
  GenesisBootstrap.execution_report (self st).

Definition phases_of (st : State) : gmap string (gmap string JVal) :=
  Report.phases (report_of st).

Definition phase_names (phases : list (Phase * Executor)) : list string :=
  map (fun pe => Phase_name (fst pe)) phases.

(** Number of records of a log sequence with a given status. *)
Definition count_status (s : Status) (records : list ExecutionLog.t) : nat :=
  length (filter (fun l => ExecutionLog.status l = Status_value s) records).

(** An executor whose failures are all instances of [Exception]. *)
Definition raises_only_Exception (ex : Executor) : Prop :=
  forall bootstrap files e files',
    ex bootstrap files = (Raises e, files') -> exc_is_Exception e = true.

(** The shape of a log record: [errors] is a one-element list on error
    and absent on success. *)
Definition log_shape (l : ExecutionLog.t) : Prop :=
  (ExecutionLog.status l = Status_value SUCCESS /\
   ExecutionLog.errors l = None) \/
  (ExecutionLog.status l = Status_value ERROR /\
   exists msg, ExecutionLog.errors l = Some [msg]).

(** The two dictionaries [execute_phase] stores in the report. *)
Definition success_entry (duration : Q) (start_time : Z) : gmap string JVal :=
  <["status" := JStr "SUCCESS"]>
  (<["duration_ms" := JFloat duration]>
   (<["timestamp" := JIso start_time]> ∅)).

Definition error_entry (msg : string) (duration : Q) : gmap string JVal :=
  <["status" := JStr "ERROR"]>
  (<["error" := JStr msg]>
   (<["duration_ms" := JFloat duration]> ∅)).

(** A clock that never runs backwards. *)
Definition nondecreasing (clk : nat -> Z) : Prop :=
  forall i j : nat, (i <= j)%nat -> clk i <= clk j.

(** The records a run has appended to the log of [st]. *)
Definition appended (st st' : State) : list ExecutionLog.t :=
  drop (length (logs_of st)) (logs_of st').

(** The parts of the state that identify the run: the clock, the
    bootstrap's path and timestamp, the report's start time and its
    metrics. *)
Definition same_header (st st' : State) : Prop :=
  clock st' = clock st /\
  GenesisBootstrap.base_path (self st') = GenesisBootstrap.base_path (self st) /\
  GenesisBootstrap.timestamp (self st') = GenesisBootstrap.timestamp (self st) /\
  Report.start_time (report_of st') = Report.start_time (report_of st) /\
  Report.metrics (report_of st') = Report.metrics (report_of st).

(** The fields [main] fills in when the run is over. *)
Definition same_totals (st st' : State) : Prop :=
  Report.end_time (report_of st') = Report.end_time (report_of st) /\
  Report.success_count (report_of st') = Report.success_count (report_of st) /\
  Report.total_phases (report_of st') = Report.total_phases (report_of st).

(** A registry whose second phase calls [sys.exit(1)] after the first
    has succeeded. *)
Definition interrupted_registry : list (Phase * Executor) :=
  [ (FILESYSTEM, succeeds PyNone); (CONFIG_MGMT, fails (SystemExit "1")) ].

(** The instant an attempt that begins in [st] records as its start (its
    first reading of the clock), and the duration it computes (from its
    first two readings). *)
Definition phase_start (st : State) : Z := clock st (ticks st).





(** The body of [main] with the self-test taken as one more opaque
    action: [run] is [run_with phase_11_self_test]. *)
Definition run_with (self_test : Executor) (phases : list (Phase * Executor))
  : M Summary :=
  do success_count <- for_phases phases 0%nat;
  do bootstrap <- get_self;
  do self_test_success <- execute_phase SELF_TEST (self_test bootstrap);
  do t <- now;
  do_ modify_report (fun r =>
        Report.mk (Report.start_time r) (Report.phases r) (Report.metrics r)
          (Some t) (Some success_count) (Some (length phases)));
  ret {| phasen_erfolgreich := (success_count, length phases);
         selbsttest := self_test_success;
         gesamtstatus :=
           bool_decide (success_count = length phases) && self_test_success |}.

(** The error [stat] raises on a path below a directory that may not be
    searched. *)
Definition PermissionError (path : string) : PyExc :=
  {| exc_class := "PermissionError";
     exc_is_Exception := true;
     exc_str := "[Errno 13] Permission denied: '" +:+ path +:+ "'" |}.

(** What one call of [path.exists()] does: it raises, or it answers. *)
Definition Probe := string -> PyExc + bool.

(** The [checks] table of [phase_11_self_test]: the name of each check
    and the path it probes, in the order of the dictionary display. *)
Definition self_test_table (base_path : string) : list (string * string) :=
  [ ("Verzeichnisstruktur", base_path // "core");
    ("Konfiguration", base_path // "core" // "config.py");
    ("Logger", base_path // "shared" // "logger" // "structured_logger.py");
    ("ORM-Modelle", base_path // "shared" // "database" // "models.py");
    ("AST-Analyzer", base_path // "core" // "analyzer.py");
    ("DCI", base_path // "core" // "dci.py");
    ("AI-Commander", base_path // "core" // "ai_commander.py");
    ("Orchestrator", base_path // "core" // "orchestrator.py");
    ("Injektions-Engine", base_path // "core" // "injection_engine.py");
    ("API-Server", base_path // "api" // "server.py") ].

(** Building the [checks] dictionary: the probes are evaluated in the
    order of the table, and the first one that raises ends it. *)
Fixpoint evaluate_checks (probe : Probe) (table : list (string * string))
  : PyExc + list (string * bool) :=
  match table with
  | [] => inr []
  | (check_name, path) :: rest =>
      match probe path with
      | inl e => inl e
      | inr result =>
          match evaluate_checks probe rest with
          | inl e => inl e
          | inr checks => inr ((check_name, result) :: checks)
          end
      end
  end.

(** [phase_11_self_test] over probes that may raise;
    [phase_11_self_test] is the case where [exists] is the membership
    test [path_exists]. *)
Definition phase_11_self_test_with (probe : Probe)
    (bootstrap : GenesisBootstrap.t) : Action :=
  fun files =>
    match evaluate_checks probe
            (self_test_table (GenesisBootstrap.base_path bootstrap)) with
    | inl e => (Raises e, files)
    | inr checks => (Returns (PyBool (all_checks checks true)), files)
    end.

Section ReportFile.
(** [t.strftime("%Y%m%d_%H%M%S")], kept abstract. *)
Variable strftime : Z -> string.

Definition report_path (bootstrap : GenesisBootstrap.t) : string :=
  GenesisBootstrap.base_path bootstrap
    // ("reconstruction_report_"
          +:+ strftime (GenesisBootstrap.timestamp bootstrap) +:+ ".json").

(** [main] to its last line: after the totals are set, the report is
    written to [report_path], outside any [try]. *)
Definition main_and_export
    (f1 f2 f3 f4 f5 f6 f7 f8 f9 f10 : Executor)
    (files : gset string) (clk : nat -> Z) : Res Summary * State :=
  match main f1 f2 f3 f4 f5 f6 f7 f8 f9 f10 files clk with
  | (Val s, st) =>
      match write_text (report_path (self st)) (fs st) with
      | (None, files') =>
          (Val s, {| self := self st; fs := files';
                     clock := clock st; ticks := ticks st |})
      | (Some e, files') =>
          (Exn e, {| self := self st; fs := files';
                     clock := clock st; ticks := ticks st |})
      end
  | (Exn e, st) => (Exn e, st)
  end.
End ReportFile.

(** A probe that finds the first path, may not look at the second, and
    would find nothing else. *)
Definition sample_probe : Probe :=
  fun path =>
    if String.eqb path "genesis_core/core" then inr true
    else if String.eqb path "genesis_core/core/config.py"
         then inl (PermissionError path)
         else inr false.

(** A phase function that removes everything below the base path, the
    base directory included. *)
Definition removes_everything : Executor :=
  fun _ _ => (Returns (PyBool true), ∅).

Definition sample_strftime : Z -> string := fun _ => "20240101_120000".

(** Every call of [execute_phase] ends in one of three ways. *)
Inductive phase_result (p : Phase) (a : Action) (st : State)
  : Res bool -> State -> Prop :=
| phase_succeeded v files' st' l d t :
    a (fs st) = (Returns v, files') ->
    logs_of st' = logs_of st ++ [l] ->
    ExecutionLog.phase l = Phase_name p ->
    ExecutionLog.status l = Status_value SUCCESS ->
    ExecutionLog.errors l = None ->
    phases_of st' = <[Phase_name p := success_entry d t]> (phases_of st) ->
    fs st' = files' ->
    GenesisBootstrap.base_path (self st') = GenesisBootstrap.base_path (self st) ->
    phase_result p a st (Val true) st'
| phase_failed e files' st' l d :
    a (fs st) = (Raises e, files') ->
    exc_is_Exception e = true ->
    logs_of st' = logs_of st ++ [l] ->
    ExecutionLog.phase l = Phase_name p ->
    ExecutionLog.status l = Status_value ERROR ->
    ExecutionLog.errors l = Some [exc_str e] ->
    phases_of st' = <[Phase_name p := error_entry (exc_str e) d]> (phases_of st) ->
    fs st' = files' ->
    GenesisBootstrap.base_path (self st') = GenesisBootstrap.base_path (self st) ->
    phase_result p a st (Val false) st'
| phase_propagated e files' st' :
    a (fs st) = (Raises e, files') ->
    exc_is_Exception e = false ->
    self st' = self st ->
    fs st' = files' ->
    phase_result p a st (Exn e) st'.

(** ** The engine, one phase at a time *)

Ltac run_phase H :=
  unfold execute_phase, bind, now, await, logs_append, report_set_phase,
    modify_report, modify_self, ret, raise;
  cbn [self fs clock ticks]; rewrite H; cbn [self fs clock ticks].

Lemma status_glyphs_differ : Status_value SUCCESS <> Status_value ERROR.
Proof. discriminate. Qed.

Lemma execute_phase_returns p a st v files' :
  a (fs st) = (Returns v, files') ->
  exists st' l d t,
    execute_phase p a st = (Val true, st') /\
    logs_of st' = logs_of st ++ [l] /\
    ExecutionLog.phase l = Phase_name p /\
    ExecutionLog.status l = Status_value SUCCESS /\
    ExecutionLog.errors l = None /\
    phases_of st' = <[Phase_name p := success_entry d t]> (phases_of st) /\
    fs st' = files' /\
    GenesisBootstrap.base_path (self st') = GenesisBootstrap.base_path (self st).
Proof.
  intros Ha. run_phase Ha.
  do 4 eexists. split; [reflexivity|]. cbn. repeat split; reflexivity.
Qed.

Lemma execute_phase_raises p a st e files' :
  a (fs st) = (Raises e, files') ->
  exc_is_Exception e = true ->
  exists st' l d,
    execute_phase p a st = (Val false, st') /\
    logs_of st' = logs_of st ++ [l] /\
    ExecutionLog.phase l = Phase_name p /\
    ExecutionLog.status l = Status_value ERROR /\
    ExecutionLog.errors l = Some [exc_str e] /\
    ExecutionLog.message l = "Fehler: " +:+ exc_str e /\
    phases_of st' = <[Phase_name p := error_entry (exc_str e) d]> (phases_of st) /\
    fs st' = files' /\
    GenesisBootstrap.base_path (self st') = GenesisBootstrap.base_path (self st).
Proof.
  intros Ha He. run_phase Ha. rewrite He.
  do 3 eexists. split; [reflexivity|]. cbn. repeat split; reflexivity.
Qed.

Lemma execute_phase_propagates p a st e files' :
  a (fs st) = (Raises e, files') ->
  exc_is_Exception e = false ->
  exists st',
    execute_phase p a st = (Exn e, st') /\
    self st' = self st /\ fs st' = files'.
Proof.
  intros Ha He. run_phase Ha. rewrite He.
  eexists. split; [reflexivity|]. split; reflexivity.
Qed.

Lemma execute_phase_result p a st r st' :
  execute_phase p a st = (r, st') -> phase_result p a st r st'.
Proof.
  destruct (a (fs st)) as [[v|e] files'] eqn:Ha.
  - destruct (execute_phase_returns p a st v files' Ha)
      as (st1 & l & d & t & E & ? & ? & ? & ? & ? & ? & ?).
    rewrite E. intros [= <- <-]. eapply phase_succeeded; eauto.
  - destruct (exc_is_Exception e) eqn:He.
    + destruct (execute_phase_raises p a st e files' Ha He)
        as (st1 & l & d & E & ? & ? & ? & ? & ? & ? & ? & ?).
      rewrite E. intros [= <- <-]. eapply phase_failed; eauto.
    + destruct (execute_phase_propagates p a st e files' Ha He)
        as (st1 & E & ? & ?).
      rewrite E. intros [= <- <-]. eapply phase_propagated; eauto.
Qed.

(** The self-test action returns whatever its probes say; it never raises. *)
Lemma phase_11_self_test_returns bootstrap files :
  phase_11_self_test bootstrap files =
    (Returns (PyBool (all_checks
       (self_test_checks (GenesisBootstrap.base_path bootstrap) files) true)),
     files).
Proof. reflexivity. Qed.

(** ** The loop over the registry *)

Lemma for_phases_cons p ex rest c st :
  for_phases ((p, ex) :: rest) c st =
    match execute_phase p (ex (self st)) st with
    | (Val success, st1) =>
        for_phases rest (if success then S c else c) st1
    | (Exn e, st1) => (Exn e, st1)
    end.
Proof. reflexivity. Qed.

Lemma for_phases_app pre post c st :
  for_phases (pre ++ post) c st =
    match for_phases pre c st with
    | (Val c1, st1) => for_phases post c1 st1
    | (Exn e, st1) => (Exn e, st1)
    end.
Proof.
  revert c st. induction pre as [|[p ex] pre IH]; intros c st.
  - reflexivity.
  - rewrite <- app_comm_cons, !for_phases_cons.
    destruct (execute_phase p (ex (self st)) st) as [[b|e] st1]; [apply IH | reflexivity].
Qed.

Lemma count_status_app s l1 l2 :
  count_status s (l1 ++ l2) = (count_status s l1 + count_status s l2)%nat.
Proof. unfold count_status. by rewrite filter_app, length_app. Qed.

Lemma count_status_one s l :
  count_status s [l] =
    if decide (ExecutionLog.status l = Status_value s) then 1%nat else 0%nat.
Proof.
  unfold count_status. rewrite filter_cons, filter_nil.
  by destruct (decide _).
Qed.

(** What the loop leaves in the log, whether it finishes or is cut short. *)
Lemma for_phases_logs phases : forall c st r st',
  for_phases phases c st = (r, st') ->
  exists new,
    logs_of st' = logs_of st ++ new /\
    Forall log_shape new /\
    GenesisBootstrap.base_path (self st') = GenesisBootstrap.base_path (self st) /\
    match r with
    | Val c' =>
        map ExecutionLog.phase new = phase_names phases /\
        c' = (c + count_status SUCCESS new)%nat
    | Exn e =>
        exc_is_Exception e = false /\ (length new < length phases)%nat
    end.
Proof.
  induction phases as [|[p ex] rest IH]; intros c st r st' H.
  - injection H as <- <-. exists []. rewrite app_nil_r.
    repeat split; auto.
  - rewrite for_phases_cons in H.
    destruct (execute_phase p (ex (self st)) st) as [r1 st1] eqn:E.
    apply execute_phase_result in E.
    inversion E as [v f1 ? l d t Ha Hl Hp Hs He Hr Hf Hb
                   |e f1 ? l d Ha Hx Hl Hp Hs He Hr Hf Hb
                   |e f1 ? Ha Hx Hself Hf]; subst.
    + destruct (IH _ _ _ _ H) as (new & Hn & Hsh & Hbp & Hres).
      exists (l :: new). rewrite Hn, Hl, <- app_assoc. split; [done|].
      split; [constructor; [left; done | done]|].
      split; [congruence|].
      destruct r as [c'|e]; cbn [length].
      * destruct Hres as [Hm ->].
        split; [unfold phase_names in *; cbn [map fst]; by rewrite Hp, Hm|].
        change (l :: new) with ([l] ++ new).
        rewrite count_status_app, count_status_one.
        destruct (decide _); [lia | done].
      * destruct Hres. split; [done | lia].
    + destruct (IH _ _ _ _ H) as (new & Hn & Hsh & Hbp & Hres).
      exists (l :: new). rewrite Hn, Hl, <- app_assoc. split; [done|].
      split; [constructor; [right; eauto | done]|].
      split; [congruence|].
      destruct r as [c'|e']; cbn [length].
      * destruct Hres as [Hm ->].
        split; [unfold phase_names in *; cbn [map fst]; by rewrite Hp, Hm|].
        change (l :: new) with ([l] ++ new).
        rewrite count_status_app, count_status_one.
        destruct (decide _) as [Heq|]; [|lia].
        rewrite Hs in Heq. by destruct status_glyphs_differ.
      * destruct Hres. split; [done | lia].
    + injection H as <- <-. exists []. rewrite app_nil_r.
      unfold logs_of. rewrite Hself. repeat split; auto. cbn. lia.
Qed.

Lemma Phase_name_inj p q : Phase_name p = Phase_name q -> p = q.
Proof. destruct p, q; intros H; first [reflexivity | discriminate H]. Qed.

(** Entries of the report under names the loop does not run are left
    alone. *)
Lemma for_phases_entries_frame phases : forall c st r st' name,
  for_phases phases c st = (r, st') ->
  name ∉ phase_names phases ->
  phases_of st' !! name = phases_of st !! name.
Proof.
  induction phases as [|[p ex] rest IH]; intros c st r st' name H Hn.
  - by injection H as <- <-.
  - rewrite for_phases_cons in H.
    unfold phase_names in Hn. cbn [map fst] in Hn.
    apply not_elem_of_cons in Hn as [Hne Hn].
    destruct (execute_phase p (ex (self st)) st) as [r1 st1] eqn:E.
    apply execute_phase_result in E.
    inversion E as [v f1 ? l d t Ha Hl Hp Hs He Hr Hf Hb
                   |e f1 ? l d Ha Hx Hl Hp Hs He Hr Hf Hb
                   |e f1 ? Ha Hx Hself Hf]; subst.
    + rewrite (IH _ _ _ _ name H Hn), Hr. by rewrite lookup_insert_ne.
    + rewrite (IH _ _ _ _ name H Hn), Hr. by rewrite lookup_insert_ne.
    + injection H as <- <-. unfold phases_of, report_of. by rewrite Hself.
Qed.

(** ** The whole run *)

Lemma self_test_step st :
  exists st' l d t,
    execute_phase SELF_TEST (phase_11_self_test (self st)) st = (Val true, st') /\
    logs_of st' = logs_of st ++ [l] /\
    ExecutionLog.phase l = Phase_name SELF_TEST /\
    ExecutionLog.status l = Status_value SUCCESS /\
    ExecutionLog.errors l = None /\
    phases_of st' = <[Phase_name SELF_TEST := success_entry d t]> (phases_of st).
Proof.
  destruct (execute_phase_returns SELF_TEST (phase_11_self_test (self st)) st
              _ _ (phase_11_self_test_returns (self st) (fs st)))
    as (st' & l & d & t & E & ? & ? & ? & ? & ? & _).
  exists st', l, d, t. auto 10.
Qed.

Lemma run_completed phases st s st' :
  run phases st = (Val s, st') ->
  exists c st1 st2,
    for_phases phases 0%nat st = (Val c, st1) /\
    execute_phase SELF_TEST (phase_11_self_test (self st1)) st1 = (Val true, st2) /\
    logs_of st' = logs_of st2 /\
    phases_of st' = phases_of st2 /\
    Report.success_count (report_of st') = Some c /\
    Report.total_phases (report_of st') = Some (length phases) /\
    is_Some (Report.end_time (report_of st')) /\
    s = {| phasen_erfolgreich := (c, length phases);
           selbsttest := true;
           gesamtstatus := bool_decide (c = length phases) && true |}.
Proof.
  unfold run at 1, bind at 1.
  destruct (for_phases phases 0%nat st) as [[c|e] st1] eqn:Hloop; [|done].
  unfold bind at 1, get_self. unfold bind at 1.
  destruct (self_test_step st1) as (st2 & l & d & t & E & _).
  rewrite E. unfold bind, now, modify_report, modify_self, ret.
  cbn [self fs clock ticks]. intros [= <- <-].
  exists c, st1, st2. repeat split; eauto.
Qed.

Lemma run_propagated phases st e st' :
  run phases st = (Exn e, st') ->
  for_phases phases 0%nat st = (Exn e, st').
Proof.
  unfold run at 1, bind at 1.
  destruct (for_phases phases 0%nat st) as [[c|e1] st1] eqn:Hloop;
    [|by intros [= <- <-]].
  unfold bind at 1, get_self. unfold bind at 1.
  destruct (self_test_step st1) as (st2 & l & d & t & E & _).
  rewrite E. unfold bind, now, modify_report, modify_self, ret.
  cbn [self fs clock ticks]. discriminate.
Qed.

(** A registry whose actions raise nothing but [Exception]s is run to
    the end. *)
Lemma for_phases_completes phases :
  Forall (fun pe => raises_only_Exception (snd pe)) phases ->
  forall c st, exists c' st', for_phases phases c st = (Val c', st').
Proof.
  induction 1 as [|[p ex] rest Hex _ IH]; intros c st.
  - by exists c, st.
  - rewrite for_phases_cons.
    destruct (execute_phase p (ex (self st)) st) as [r1 st1] eqn:E.
    apply execute_phase_result in E.
    inversion E as [v f1 ? l d t Ha Hl Hp Hs He Hr Hf Hb
                   |e f1 ? l d Ha Hx Hl Hp Hs He Hr Hf Hb
                   |e f1 ? Ha Hx Hself Hf]; subst; [apply IH | apply IH |].
    cbn in Hex. apply Hex in Ha. congruence.
Qed.

Lemma run_completes phases st :
  Forall (fun pe => raises_only_Exception (snd pe)) phases ->
  exists s st', run phases st = (Val s, st').
Proof.
  intros Hall.
  destruct (for_phases_completes phases Hall 0%nat st) as (c & st1 & Hloop).
  destruct (self_test_step st1) as (st2 & l & d & t & E & _).
  unfold run, bind at 1. rewrite Hloop.
  unfold bind at 1, get_self. unfold bind at 1. rewrite E.
  unfold bind, now, modify_report, modify_self, ret. eauto.
Qed.

(** The log of a run, finished or not. *)
Lemma run_logs phases st r st' :
  run phases st = (r, st') ->
  exists new,
    logs_of st' = logs_of st ++ new /\
    Forall log_shape new /\
    match r with
    | Val s =>
        map ExecutionLog.phase new = phase_names phases ++ [Phase_name SELF_TEST] /\
        exists body l,
          new = body ++ [l] /\
          length body = length phases /\
          ExecutionLog.status l = Status_value SUCCESS /\
          fst (phasen_erfolgreich s) = count_status SUCCESS body
    | Exn e => exc_is_Exception e = false /\ (length new < length phases)%nat
    end.
Proof.
  destruct r as [s|e]; intros H.
  - apply run_completed in H
      as (c & st1 & st2 & Hloop & Hself & Hl & _ & _ & _ & _ & ->).
    apply for_phases_logs in Hloop as (body & Hb & Hsh & _ & Hnames & ->).
    destruct (self_test_step st1) as (st2' & l & d & t & E & Hl2 & Hp & Hs & He & _).
    rewrite E in Hself. injection Hself as <-.
    exists (body ++ [l]). rewrite Hl, Hl2, Hb, <- app_assoc. split; [done|].
    split; [apply Forall_app; split; [done|]; constructor; [left; done | constructor]|].
    rewrite map_app, Hnames. cbn [map]. rewrite Hp. split; [done|].
    exists body, l. repeat split; auto.
    by rewrite <- (length_map ExecutionLog.phase), Hnames; unfold phase_names; rewrite length_map.
  - apply run_propagated in H.
    apply for_phases_logs in H as (new & ? & ? & _ & ? & ?). eauto 10.
Qed.

(** Where a run stands after a prefix of the registry, and what the rest
    of the run adds from there. *)
Lemma run_after pre post st c st1 s st' :
  for_phases pre 0%nat st = (Val c, st1) ->
  run (pre ++ post) st = (Val s, st') ->
  exists rest,
    logs_of st' = logs_of st1 ++ rest /\
    map ExecutionLog.phase rest = phase_names post ++ [Phase_name SELF_TEST] /\
    forall name,
      name ∉ phase_names post -> name <> Phase_name SELF_TEST ->
      phases_of st' !! name = phases_of st1 !! name.
Proof.
  intros Hpre Hrun.
  apply run_completed in Hrun
    as (c' & st3 & st4 & Hloop & Hself & Hl & Hp & _).
  rewrite for_phases_app, Hpre in Hloop.
  destruct (self_test_step st3) as (st4' & l & d & t & E & Hl4 & Hn & _ & _ & Hp4).
  rewrite E in Hself. injection Hself as <-.
  pose proof (fun name => for_phases_entries_frame _ _ _ _ _ name Hloop)
    as Hframe.
  apply for_phases_logs in Hloop as (body & Hb & _ & _ & Hnames & _).
  exists (body ++ [l]). rewrite Hl, Hl4, Hb, <- app_assoc. split; [done|].
  rewrite map_app, Hnames. cbn [map]. rewrite Hn. split; [done|].
  intros name Hnot Hne.
  rewrite Hp, Hp4, lookup_insert_ne by done. by apply Hframe.
Qed.

Lemma for_phases_snoc pre p ex c st c1 st1 :
  for_phases pre c st = (Val c1, st1) ->
  for_phases (pre ++ [(p, ex)]) c st =
    match execute_phase p (ex (self st1)) st1 with
    | (Val success, st2) => (Val (if success then S c1 else c1), st2)
    | (Exn e, st2) => (Exn e, st2)
    end.
Proof.
  intros H. rewrite for_phases_app, H, for_phases_cons.
  by destruct (execute_phase p (ex (self st1)) st1) as [[[]|e] st2].
Qed.

Lemma success_entry_fields d t :
  success_entry d t !! "status" = Some (JStr "SUCCESS") /\
  success_entry d t !! "duration_ms" = Some (JFloat d) /\
  success_entry d t !! "timestamp" = Some (JIso t) /\
  success_entry d t !! "error" = None.
Proof. unfold success_entry. repeat split; by simplify_map_eq. Qed.

Lemma error_entry_fields msg d :
  error_entry msg d !! "status" = Some (JStr "ERROR") /\
  error_entry msg d !! "duration_ms" = Some (JFloat d) /\
  error_entry msg d !! "timestamp" = None /\
  error_entry msg d !! "error" = Some (JStr msg).
Proof. unfold error_entry. repeat split; by simplify_map_eq. Qed.

Lemma samples_raise_only_Exception :
  (forall v, raises_only_Exception (succeeds v)) /\
  (forall msg, raises_only_Exception (fails (RuntimeError msg))) /\
  (forall path, raises_only_Exception (writes path)).
Proof.
  repeat split; intros x b files e files'; unfold succeeds, fails, writes;
    intros [= <-]; try reflexivity.
Qed.

(** ** Properties of the run *)

(** C1, as stated, fails: [except Exception] does not catch an exception
    that derives from [BaseException] only.  A first phase whose action
    calls [sys.exit(1)] makes [execute_phase] raise instead of returning
    [False]; nothing is logged or reported, the second phase is never
    started, and the exception leaves the run. *)
Lemma SystemExit_escapes_the_run :
  fst (execute_phase FILESYSTEM (fails (SystemExit "1") (self fresh)) fresh)
    = Exn (SystemExit "1") /\
  fst (run fatal_registry fresh) = Exn (SystemExit "1") /\
  final_logs (run fatal_registry fresh) = [] /\
  Report.phases (final_report (run fatal_registry fresh)) = ∅.
Proof. vm_compute. repeat split. Qed.

(** C1, amended: in a run whose actions raise nothing but instances of
    [Exception], when the run has reached phase [p] and the action of [p]
    raises [e], [execute_phase] returns [False] after appending an error
    record that carries [str(e)] and storing an [ERROR] entry with
    [str(e)] in the report; the loop goes on with the phases after [p],
    and the run returns normally. *)
Theorem Exception_is_contained
    (pre post : list (Phase * Executor)) (p : Phase) (ex : Executor)
    (st st1 : State) (c : nat) (e : PyExc) (files' : gset string) :
  Forall (fun pe => raises_only_Exception (snd pe)) (pre ++ (p, ex) :: post) ->
  for_phases pre 0%nat st = (Val c, st1) ->
  ex (self st1) (fs st1) = (Raises e, files') ->
  exists st2 l entry,
    execute_phase p (ex (self st1)) st1 = (Val false, st2) /\
    logs_of st2 = logs_of st1 ++ [l] /\
    ExecutionLog.phase l = Phase_name p /\
    ExecutionLog.status l = Status_value ERROR /\
    ExecutionLog.errors l = Some [exc_str e] /\
    phases_of st2 !! Phase_name p = Some entry /\
    entry !! "status" = Some (JStr "ERROR") /\
    entry !! "error" = Some (JStr (exc_str e)) /\
    for_phases (pre ++ (p, ex) :: post) 0%nat st = for_phases post c st2 /\
    exists s st', run (pre ++ (p, ex) :: post) st = (Val s, st').
Proof.
  intros Hall Hpre Ha.
  assert (He : exc_is_Exception e = true).
  { apply Forall_app in Hall as [_ Hall]. apply Forall_cons in Hall as [Hex _].
    exact (Hex _ _ _ _ Ha). }
  destruct (execute_phase_raises p _ _ _ _ Ha He)
    as (st2 & l & d & E & Hl & Hp & Hs & Herr & _ & Hr & _).
  exists st2, l, (error_entry (exc_str e) d).
  destruct (error_entry_fields (exc_str e) d) as (F1 & _ & _ & F2).
  repeat (split; [first [done | by rewrite Hr, lookup_insert_eq]|]).
  split.
  - by rewrite for_phases_app, Hpre, for_phases_cons, E.
  - by apply run_completes.
Qed.

Lemma Exception_is_contained_witness :
  exists st2 l entry,
    execute_phase CONFIG_MGMT
      (fails (RuntimeError "boom") (self scenario_reached)) scenario_reached
      = (Val false, st2) /\
    logs_of st2 = logs_of scenario_reached ++ [l] /\
    ExecutionLog.phase l = Phase_name CONFIG_MGMT /\
    ExecutionLog.status l = Status_value ERROR /\
    ExecutionLog.errors l = Some [exc_str (RuntimeError "boom")] /\
    phases_of st2 !! Phase_name CONFIG_MGMT = Some entry /\
    entry !! "status" = Some (JStr "ERROR") /\
    entry !! "error" = Some (JStr (exc_str (RuntimeError "boom"))) /\
    for_phases scenario 0%nat fresh = for_phases scenario_tail 1%nat st2 /\
    exists s st', run scenario fresh = (Val s, st').
Proof.
  apply (Exception_is_contained scenario_head scenario_tail CONFIG_MGMT
           (fails (RuntimeError "boom")) fresh scenario_reached 1%nat
           (RuntimeError "boom") (fs scenario_reached)).
  - destruct samples_raise_only_Exception as (Hs & Hf & _).
    repeat constructor; cbn [snd]; auto.
  - vm_compute. reflexivity.
  - reflexivity.
Defined.

(** C10: the value an action returns is discarded.  Whenever the action
    returns, with whatever value, [execute_phase] appends a record with
    status success and no errors, stores a [SUCCESS] entry in the report
    and returns [True]; the resulting state does not depend on the value
    returned; and an action that raises never yields [True]. *)
Theorem returned_value_is_discarded
    (p : Phase) (a : Action) (st : State) (v : PyValue) (files' : gset string) :
  a (fs st) = (Returns v, files') ->
  exists st' l entry,
    execute_phase p a st = (Val true, st') /\
    logs_of st' = logs_of st ++ [l] /\
    ExecutionLog.phase l = Phase_name p /\
    ExecutionLog.status l = Status_value SUCCESS /\
    ExecutionLog.errors l = None /\
    phases_of st' !! Phase_name p = Some entry /\
    entry !! "status" = Some (JStr "SUCCESS") /\
    (forall (a2 : Action) v2,
       a2 (fs st) = (Returns v2, files') ->
       execute_phase p a2 st = execute_phase p a st) /\
    (forall (a3 : Action) e files3,
       a3 (fs st) = (Raises e, files3) ->
       fst (execute_phase p a3 st) =
         if exc_is_Exception e then Val false else Exn e).
Proof.
  intros Ha.
  destruct (execute_phase_returns p a st v files' Ha)
    as (st' & l & d & t & E & Hl & Hp & Hs & He & Hr & _).
  exists st', l, (success_entry d t).
  destruct (success_entry_fields d t) as (F1 & _).
  repeat (split; [first [done | by rewrite Hr, lookup_insert_eq]|]).
  split.
  - intros a2 v2 Ha2. clear E. run_phase Ha2. by run_phase Ha.
  - intros a3 e files3 Ha3. destruct (exc_is_Exception e) eqn:Hx.
    + by destruct (execute_phase_raises p a3 st e files3 Ha3 Hx)
        as (? & ? & ? & -> & _).
    + by destruct (execute_phase_propagates p a3 st e files3 Ha3 Hx)
        as (? & -> & _).
Qed.

Lemma returned_value_is_discarded_witness :
  exists st' l entry,
    execute_phase LOGGING (succeeds (PyBool false) (self fresh)) fresh
      = (Val true, st') /\
    logs_of st' = logs_of fresh ++ [l] /\
    ExecutionLog.phase l = Phase_name LOGGING /\
    ExecutionLog.status l = Status_value SUCCESS /\
    ExecutionLog.errors l = None /\
    phases_of st' !! Phase_name LOGGING = Some entry /\
    entry !! "status" = Some (JStr "SUCCESS") /\
    (forall (a2 : Action) v2,
       a2 (fs fresh) = (Returns v2, fs fresh) ->
       execute_phase LOGGING a2 fresh =
         execute_phase LOGGING (succeeds (PyBool false) (self fresh)) fresh) /\
    (forall (a3 : Action) e files3,
       a3 (fs fresh) = (Raises e, files3) ->
       fst (execute_phase LOGGING a3 fresh) =
         if exc_is_Exception e then Val false else Exn e).
Proof.
  apply (returned_value_is_discarded LOGGING
           (succeeds (PyBool false) (self fresh)) fresh
           (PyBool false) (fs fresh)).
  reflexivity.
Defined.

(** C7: in every record a run appends to the log, finished or cut short,
    the status is success or error, [errors] is a present, non-empty list
    exactly when the status is error, and [errors] is absent on success. *)
Theorem errors_present_iff_status_error
    (phases : list (Phase * Executor)) (st : State) :
  exists new,
    logs_of (snd (run phases st)) = logs_of st ++ new /\
    Forall (fun l =>
      (ExecutionLog.status l = Status_value SUCCESS \/
       ExecutionLog.status l = Status_value ERROR) /\
      ((exists es, ExecutionLog.errors l = Some es /\ es <> []) <->
       ExecutionLog.status l = Status_value ERROR) /\
      (ExecutionLog.status l = Status_value SUCCESS ->
       ExecutionLog.errors l = None)) new.
Proof.
  destruct (run phases st) as [r st'] eqn:Hrun.
  apply run_logs in Hrun as (new & Hl & Hsh & _).
  exists new. split; [done|].
  eapply Forall_impl; [exact Hsh|].
  intros l [[Hs He]|[Hs [msg He]]]; rewrite Hs, He.
  - split; [by left|]. split; [|done].
    split; [by intros (es & [=] & _) | intros H; by destruct status_glyphs_differ].
  - split; [by right|]. split.
    + split; [done | intros _; by exists [msg]].
    + intros H. by destruct status_glyphs_differ.
Qed.

(** C4: a complete run over a registry of N phases appends exactly N+1
    records to the log: one per registered phase, in registry order, and
    then the record of the self-test, which is last. *)
Theorem run_appends_one_record_per_phase
    (phases : list (Phase * Executor)) (st : State) (s : Summary) (st' : State) :
  run phases st = (Val s, st') ->
  exists new,
    logs_of st' = logs_of st ++ new /\
    length new = S (length phases) /\
    map ExecutionLog.phase new = phase_names phases ++ [Phase_name SELF_TEST] /\
    last (map ExecutionLog.phase new) = Some (Phase_name SELF_TEST).
Proof.
  intros Hrun.
  apply run_logs in Hrun as (new & Hl & _ & Hnames & _).
  exists new. split; [done|]. split; [|split; [done|]].
  - rewrite <- (length_map ExecutionLog.phase), Hnames, length_app.
    unfold phase_names. rewrite length_map. cbn. lia.
  - rewrite Hnames. apply last_snoc.
Qed.

Lemma run_appends_one_record_per_phase_witness :
  exists new,
    logs_of (snd (run scenario fresh)) = logs_of fresh ++ new /\
    length new = 4%nat /\
    map ExecutionLog.phase new =
      ["FILESYSTEM"; "CONFIG_MGMT"; "LOGGING"; "SELF_TEST"] /\
    last (map ExecutionLog.phase new) = Some "SELF_TEST".
Proof.
  apply (run_appends_one_record_per_phase scenario fresh
           scenario_summary (snd (run scenario fresh))).
  vm_compute. reflexivity.
Defined.

(** C3, as stated, fails for a run that an exception cuts short: the
    totals are written only after the loop and the self-test.  In the run
    below the first phase succeeds and the second calls [sys.exit(1)];
    the log holds one success record, and the report has neither a
    [success_count] nor a [total_phases]. *)
Lemma interrupted_run_has_no_success_count :
  fst (run interrupted_registry fresh) = Exn (SystemExit "1") /\
  map ExecutionLog.status (final_logs (run interrupted_registry fresh))
    = [Status_value SUCCESS] /\
  count_status SUCCESS (final_logs (run interrupted_registry fresh)) = 1%nat /\
  Report.success_count (final_report (run interrupted_registry fresh)) = None /\
  Report.total_phases (final_report (run interrupted_registry fresh)) = None.
Proof. vm_compute. repeat split. Qed.

(** C3, amended: after a run that completes, the report's
    [success_count] is the number of records with status success among
    those of the registered phases (the records the run appended, the
    self-test's last one left out), its [total_phases] is the number of
    registered phases, and [success_count <= total_phases]. *)
Theorem success_count_counts_success_records
    (phases : list (Phase * Executor)) (st : State) (s : Summary) (st' : State) :
  run phases st = (Val s, st') ->
  exists n,
    Report.success_count (report_of st') = Some n /\
    Report.total_phases (report_of st') = Some (length phases) /\
    n = count_status SUCCESS
          (take (length phases) (drop (length (logs_of st)) (logs_of st'))) /\
    (n <= length phases)%nat.
Proof.
  intros Hrun.
  destruct (run_logs _ _ _ _ Hrun)
    as (new & Hl & _ & _ & body & l & -> & Hlen & _ & Hc).
  apply run_completed in Hrun as (c & _ & _ & _ & _ & _ & _ & Hsc & Htp & _ & ->).
  cbn [phasen_erfolgreich fst] in Hc. subst c.
  exists (count_status SUCCESS body). split; [done|]. split; [done|].
  rewrite Hl, drop_app_length, <- Hlen, take_app_length. split; [done|].
  unfold count_status. apply length_filter.
Qed.

Lemma success_count_counts_success_records_witness :
  exists n,
    Report.success_count (report_of (snd (run scenario fresh))) = Some n /\
    Report.total_phases (report_of (snd (run scenario fresh))) = Some 3%nat /\
    n = count_status SUCCESS
          (take 3 (drop (length (logs_of fresh))
                     (logs_of (snd (run scenario fresh))))) /\
    (n <= 3)%nat.
Proof.
  apply (success_count_counts_success_records scenario fresh
           scenario_summary (snd (run scenario fresh))).
  vm_compute. reflexivity.
Defined.

Example scenario_success_count :
  Report.success_count (report_of (snd (run scenario fresh))) = Some 2%nat /\
  map ExecutionLog.status (logs_of (snd (run scenario fresh))) =
    [Status_value SUCCESS; Status_value ERROR;
     Status_value SUCCESS; Status_value SUCCESS].
Proof. vm_compute. split; reflexivity. Qed.

(** C5, as stated, fails on two counts.  The error description is
    [str(e)], which is empty for an exception raised without a message:
    the entry of the first phase below has the error text [""].  And a
    failure that is not an [Exception] is not recorded at all and stops
    the run: the second registry leaves no entry for its first phase and
    never starts its second. *)
Lemma error_description_may_be_empty :
  Report.phases (final_report (run silent_registry fresh)) !! "FILESYSTEM"
    = Some (error_entry "" (Qmake 1000 1000)) /\
  error_entry "" (Qmake 1000 1000) !! "error" = Some (JStr "") /\
  Report.phases (final_report (run fatal_registry fresh)) !! "FILESYSTEM"
    = None /\
  map ExecutionLog.phase (final_logs (run fatal_registry fresh)) = [].
Proof. vm_compute. repeat split. Qed.

(** C5, amended: when the run has reached phase [p] and its action fails
    with an instance of [Exception], the entry stored under the name of
    [p] has status [ERROR] and the error text [str(e)] (which may be
    empty); the loop goes on with the phases after [p]; and in a complete
    run every one of them has its record in the log, in order, before
    the self-test's, while the entry of [p] is still the one stored,
    provided no later phase has the same name. *)
Theorem failed_phase_is_reported_and_run_goes_on
    (pre post : list (Phase * Executor)) (p : Phase) (ex : Executor)
    (st st1 : State) (c : nat) (e : PyExc) (files' : gset string) :
  for_phases pre 0%nat st = (Val c, st1) ->
  ex (self st1) (fs st1) = (Raises e, files') ->
  exc_is_Exception e = true ->
  exists st2 entry,
    execute_phase p (ex (self st1)) st1 = (Val false, st2) /\
    phases_of st2 !! Phase_name p = Some entry /\
    entry !! "status" = Some (JStr "ERROR") /\
    entry !! "error" = Some (JStr (exc_str e)) /\
    for_phases (pre ++ (p, ex) :: post) 0%nat st = for_phases post c st2 /\
    forall s st',
      run (pre ++ (p, ex) :: post) st = (Val s, st') ->
      (exists rest,
         logs_of st' = logs_of st2 ++ rest /\
         map ExecutionLog.phase rest =
           phase_names post ++ [Phase_name SELF_TEST]) /\
      (Phase_name p ∉ phase_names post -> p <> SELF_TEST ->
       phases_of st' !! Phase_name p = Some entry).
Proof.
  intros Hpre Ha He.
  destruct (execute_phase_raises p _ _ _ _ Ha He)
    as (st2 & l & d & E & _ & _ & _ & _ & _ & Hr & _).
  exists st2, (error_entry (exc_str e) d).
  destruct (error_entry_fields (exc_str e) d) as (F1 & _ & _ & F2).
  split; [done|]. split; [by rewrite Hr, lookup_insert_eq|].
  split; [done|]. split; [done|]. split.
  - by rewrite for_phases_app, Hpre, for_phases_cons, E.
  - intros s st' Hrun.
    pose proof (for_phases_snoc _ p ex _ _ _ _ Hpre) as Hsnoc.
    rewrite E in Hsnoc.
    rewrite cons_middle, app_assoc in Hrun.
    destruct (run_after _ _ _ _ _ _ _ Hsnoc Hrun) as (rest & Hl & Hn & Hf).
    split; [by exists rest|].
    intros Hnot Hne. rewrite Hf, Hr; [by rewrite lookup_insert_eq | done |].
    intros Heq. by apply Phase_name_inj in Heq.
Qed.

Lemma failed_phase_is_reported_and_run_goes_on_witness :
  exists st2 entry,
    execute_phase CONFIG_MGMT
      (fails (RuntimeError "boom") (self scenario_reached)) scenario_reached
      = (Val false, st2) /\
    phases_of st2 !! Phase_name CONFIG_MGMT = Some entry /\
    entry !! "status" = Some (JStr "ERROR") /\
    entry !! "error" = Some (JStr "boom") /\
    for_phases scenario 0%nat fresh = for_phases scenario_tail 1%nat st2 /\
    forall s st',
      run scenario fresh = (Val s, st') ->
      (exists rest,
         logs_of st' = logs_of st2 ++ rest /\
         map ExecutionLog.phase rest =
           phase_names scenario_tail ++ [Phase_name SELF_TEST]) /\
      (Phase_name CONFIG_MGMT ∉ phase_names scenario_tail ->
       CONFIG_MGMT <> SELF_TEST ->
       phases_of st' !! Phase_name CONFIG_MGMT = Some entry).
Proof.
  apply (failed_phase_is_reported_and_run_goes_on scenario_head scenario_tail
           CONFIG_MGMT (fails (RuntimeError "boom")) fresh scenario_reached
           1%nat (RuntimeError "boom") (fs scenario_reached)).
  - vm_compute. reflexivity.
  - reflexivity.
  - reflexivity.
Defined.












(** The scenario once more, with the values the entries hold: the first
    phase starts at the third reading of the clock and its entry carries
    that instant; the failing phase has the error text and no
    timestamp. *)
Example scenario_entries :
  Report.phases (final_report (run scenario fresh)) !! "FILESYSTEM"
    = Some (success_entry (Qmake 1000 1000) 2000) /\
  phase_start fresh = 2000 /\
  Report.phases (final_report (run scenario fresh)) !! "CONFIG_MGMT"
    = Some (error_entry "boom" (Qmake 1000 1000)) /\
  Report.phases (final_report (run scenario fresh)) !! "SELF_TEST"
    = Some (success_entry (Qmake 1000 1000) 11000).
Proof. repeat apply conj; vm_compute; reflexivity. Qed.

(** ** The self-test and the registry of [main] *)

(** C2 does not hold of the code: [phase_11_self_test] returns the
    conjunction of its probes, and [execute_phase] drops that value.  In
    the run below the probe for the API server is false and the
    conjunction of the probes is false, yet the record of the self-test
    has status success and no errors, and the summary reports the
    self-test as passed. *)
Theorem self_test_passes_with_a_failed_probe :
  self_test_checks "genesis_core" (fs (snd main_without_server)) !! 9%nat
    = Some ("API-Server", false) /\
  all_checks
    (self_test_checks "genesis_core" (fs (snd main_without_server))) true
    = false /\
  fst main_without_server
    = Val {| phasen_erfolgreich := (9%nat, 10%nat);
             selbsttest := true; gesamtstatus := false |} /\
  (ExecutionLog.phase <$> last (final_logs main_without_server))
    = Some "SELF_TEST" /\
  (ExecutionLog.status <$> last (final_logs main_without_server))
    = Some (Status_value SUCCESS) /\
  (ExecutionLog.errors <$> last (final_logs main_without_server))
    = Some None.
Proof. vm_compute. repeat split. Qed.

(** C8, as stated, fails: the first phase [main] executes is FILESYSTEM,
    whose ordinal is 2, and the ninth is INJECTION_ENGINE, whose ordinal
    is 12. *)
Lemma executed_ordinals_start_at_two :
  executed_ordinals idle_registry !! 0%nat = Some 2 /\
  executed_ordinals idle_registry !! 8%nat = Some 12.
Proof. split; reflexivity. Qed.

(** C8, amended: whatever the ten phase functions are, the ordinals of
    the phases a run of [main] executes are 2 to 9, 12, 14 and, for the
    self-test, 15: strictly increasing, neither starting at 1 nor
    contiguous. *)
Theorem executed_ordinals_strictly_increasing
    (f1 f2 f3 f4 f5 f6 f7 f8 f9 f10 : Executor) :
  executed_ordinals (main_phases f1 f2 f3 f4 f5 f6 f7 f8 f9 f10)
    = [2; 3; 4; 5; 6; 7; 8; 9; 12; 14; 15] /\
  StronglySorted Z.lt
    (executed_ordinals (main_phases f1 f2 f3 f4 f5 f6 f7 f8 f9 f10)).
Proof.
  split; [reflexivity|].
  change (executed_ordinals (main_phases f1 f2 f3 f4 f5 f6 f7 f8 f9 f10))
    with [2; 3; 4; 5; 6; 7; 8; 9; 12; 14; 15].
  repeat (constructor; [|repeat constructor; lia]). constructor.
Qed.

(** C9, as stated, fails: there is no registration step and no
    DuplicateOrdinal or DuplicateName error.  A registry that lists
    FILESYSTEM twice is run like any other: both entries execute, the
    log has a record for each, and the run completes. *)
Lemma repeated_phase_is_accepted :
  fst (run repeated_registry fresh)
    = Val {| phasen_erfolgreich := (1%nat, 2%nat);
             selbsttest := true; gesamtstatus := false |} /\
  map ExecutionLog.phase (final_logs (run repeated_registry fresh))
    = ["FILESYSTEM"; "FILESYSTEM"; "SELF_TEST"] /\
  map ExecutionLog.status (final_logs (run repeated_registry fresh))
    = [Status_value SUCCESS; Status_value ERROR; Status_value SUCCESS].
Proof. vm_compute. repeat split. Qed.

(** C9, amended: the registry is a list that nothing checks for
    collisions.  Any registry whose actions raise nothing but
    [Exception]s, with or without repeated phases, is run to the end and
    every one of its entries is executed in order; and in the registry
    of [main], the names and the ordinals of the phases, the self-test's
    included, are pairwise distinct. *)
Theorem registry_is_not_checked
    (phases : list (Phase * Executor)) (st : State) :
  Forall (fun pe => raises_only_Exception (snd pe)) phases ->
  (exists s st',
     run phases st = (Val s, st') /\
     map ExecutionLog.phase (drop (length (logs_of st)) (logs_of st'))
       = phase_names phases ++ [Phase_name SELF_TEST]) /\
  (forall f1 f2 f3 f4 f5 f6 f7 f8 f9 f10 : Executor,
     NoDup (phase_names (main_phases f1 f2 f3 f4 f5 f6 f7 f8 f9 f10)
              ++ [Phase_name SELF_TEST]) /\
     NoDup (executed_ordinals (main_phases f1 f2 f3 f4 f5 f6 f7 f8 f9 f10))).
Proof.
  intros Hall. split.
  - destruct (run_completes phases st Hall) as (s & st' & Hrun).
    exists s, st'. split; [done|].
    apply run_logs in Hrun as (new & -> & _ & Hn & _).
    by rewrite drop_app_length.
  - intros. split; apply (bool_decide_unpack _); vm_compute; exact I.
Qed.

Lemma registry_is_not_checked_witness :
  (exists s st',
     run repeated_registry fresh = (Val s, st') /\
     map ExecutionLog.phase (drop (length (logs_of fresh)) (logs_of st'))
       = phase_names repeated_registry ++ [Phase_name SELF_TEST]) /\
  (forall f1 f2 f3 f4 f5 f6 f7 f8 f9 f10 : Executor,
     NoDup (phase_names (main_phases f1 f2 f3 f4 f5 f6 f7 f8 f9 f10)
              ++ [Phase_name SELF_TEST]) /\
     NoDup (executed_ordinals (main_phases f1 f2 f3 f4 f5 f6 f7 f8 f9 f10))).
Proof.
  apply (registry_is_not_checked repeated_registry fresh).
  destruct samples_raise_only_Exception as (Hs & Hf & _).
  repeat constructor; cbn [snd]; auto.
Defined.


(** ** Further properties of the engine *)

(** Case analysis on what the action does in the state at hand, with
    [execute_phase] evaluated in each case. *)
Ltac phase_cases a st :=
  let v := fresh "v" in
  let e := fresh "e" in
  let files' := fresh "files'" in
  let Ha := fresh "Ha" in
  let Hx := fresh "Hx" in
  destruct (a (fs st)) as [[v|e] files'] eqn:Ha;
    [ run_phase Ha
    | destruct (exc_is_Exception e) eqn:Hx; run_phase Ha; rewrite Hx ].

(** What one call leaves untouched, and the clock readings it takes. *)
Lemma execute_phase_frame p a st r st' :
  execute_phase p a st = (r, st') ->
  clock st' = clock st /\
  ticks st' = (ticks st + match r with Val _ => 3 | Exn _ => 1 end)%nat /\
  GenesisBootstrap.base_path (self st') = GenesisBootstrap.base_path (self st) /\
  GenesisBootstrap.timestamp (self st') = GenesisBootstrap.timestamp (self st) /\
  Report.start_time (report_of st') = Report.start_time (report_of st) /\
  Report.metrics (report_of st') = Report.metrics (report_of st) /\
  Report.end_time (report_of st') = Report.end_time (report_of st) /\
  Report.success_count (report_of st') = Report.success_count (report_of st) /\
  Report.total_phases (report_of st') = Report.total_phases (report_of st) /\
  fs st' = snd (a (fs st)).
Proof.
  phase_cases a st; intros [= <- <-]; cbn; repeat split; lia.
Qed.

(** The instants one call writes into its record. *)
Lemma execute_phase_times p a st b st' :
  execute_phase p a st = (Val b, st') ->
  exists l,
    logs_of st' = logs_of st ++ [l] /\
    ExecutionLog.timestamp l = clock st (ticks st + 2)%nat /\
    ExecutionLog.duration_ms l =
      elapsed_ms (clock st (ticks st)) (clock st (ticks st + 1)%nat).
Proof.
  replace (ticks st + 2)%nat with (S (S (ticks st))) by lia.
  replace (ticks st + 1)%nat with (S (ticks st)) by lia.
  phase_cases a st; intros [= <- <-]; eexists; cbn;
    (split; [reflexivity|]); split; reflexivity.
Qed.

Lemma appended_app st st' new :
  logs_of st' = logs_of st ++ new -> appended st st' = new.
Proof. intros H. unfold appended. by rewrite H, drop_app_length. Qed.

Lemma for_phases_frame phases : forall c st r st',
  for_phases phases c st = (r, st') ->
  same_header st st' /\ same_totals st st' /\
  match r with
  | Val _ => ticks st' = (ticks st + 3 * length phases)%nat
  | Exn _ => True
  end.
Proof.
  induction phases as [|[p ex] rest IH]; intros c st r st' H.
  - injection H as <- <-. unfold same_header, same_totals.
    repeat split; cbn; lia.
  - rewrite for_phases_cons in H.
    destruct (execute_phase p (ex (self st)) st) as [[b|e] st1] eqn:E;
      apply execute_phase_frame in E
        as (E1 & E2 & E3 & E4 & E5 & E6 & E7 & E8 & E9 & _).
    + apply IH in H as ((H1 & H2 & H3 & H4 & H5) & (H6 & H7 & H8) & Ht).
      unfold same_header, same_totals.
      repeat split; try congruence.
      destruct r; [cbn [length]; lia | done].
    + injection H as <- <-. unfold same_header, same_totals.
      repeat split; congruence.
Qed.

(** The records the loop appends are those of a prefix of the registry:
    the whole registry when the loop finishes. *)
Lemma for_phases_prefix phases : forall c st r st',
  for_phases phases c st = (r, st') ->
  map ExecutionLog.phase (appended st st') =
    take (length (appended st st')) (phase_names phases).
Proof.
  induction phases as [|[p ex] rest IH]; intros c st r st' H.
  - injection H as <- <-. unfold appended. by rewrite drop_all.
  - pose proof H as H0. rewrite for_phases_cons in H.
    destruct (execute_phase p (ex (self st)) st) as [r1 st1] eqn:E.
    apply execute_phase_result in E.
    inversion E as [v f1 ? l d t Ha Hl Hp Hs He Hr Hf Hb
                   |e f1 ? l d Ha Hx Hl Hp Hs He Hr Hf Hb
                   |e f1 ? Ha Hx Hself Hf]; subst.
    + pose proof (IH _ _ _ _ H) as Hrest.
      apply for_phases_logs in H as (new & Hn & _).
      rewrite (appended_app _ _ _ Hn) in Hrest.
      rewrite Hl, <- app_assoc in Hn.
      rewrite (appended_app _ _ _ Hn). cbn. by rewrite Hp, Hrest.
    + pose proof (IH _ _ _ _ H) as Hrest.
      apply for_phases_logs in H as (new & Hn & _).
      rewrite (appended_app _ _ _ Hn) in Hrest.
      rewrite Hl, <- app_assoc in Hn.
      rewrite (appended_app _ _ _ Hn). cbn. by rewrite Hp, Hrest.
    + injection H as <- <-. unfold appended, logs_of.
      by rewrite Hself, drop_all.
Qed.

Lemma run_header (phases : list (Phase * Executor)) (st : State) :
  same_header st (snd (run phases st)).
Proof.
  destruct (run phases st) as [[s|e] st'] eqn:Hrun; cbn [snd].
  - unfold run, bind at 1 in Hrun.
    destruct (for_phases phases 0%nat st) as [[c|e] st1] eqn:Hloop; [|done].
    unfold bind at 1, get_self in Hrun. unfold bind at 1 in Hrun.
    destruct (execute_phase SELF_TEST (phase_11_self_test (self st1)) st1)
      as [[b|e] st2] eqn:E; [|done].
    apply for_phases_frame in Hloop as ((H1 & H2 & H3 & H4 & H5) & _).
    apply execute_phase_frame in E as (E1 & _ & E3 & E4 & E5 & E6 & _).
    unfold bind, now, modify_report, modify_self, ret in Hrun.
    injection Hrun as _ <-. unfold same_header. cbn.
    unfold report_of in *. repeat split; congruence.
  - apply run_propagated in Hrun.
    by apply for_phases_frame in Hrun as (? & _).
Qed.

(** X: whatever happens to the run, it leaves the clock, the bootstrap's
    base path and timestamp, and the report's start time and metrics as
    they were: the engine never records a metric. *)
Theorem run_keeps_header (phases : list (Phase * Executor)) (st : State) :
  same_header st (snd (run phases st)).
Proof. exact (run_header phases st). Qed.

(** X: when an exception leaves the run, it is not an [Exception]; the
    records appended are those of a proper prefix of the registry, so
    neither the raising phase nor any later phase nor the self-test has a
    record; and the report is never finalised: [end_time],
    [success_count] and [total_phases] stay as they were. *)
Theorem aborted_run_is_not_finalised
    (phases : list (Phase * Executor)) (st : State) (e : PyExc) (st' : State) :
  run phases st = (Exn e, st') ->
  exc_is_Exception e = false /\
  (length (appended st st') < length phases)%nat /\
  map ExecutionLog.phase (appended st st') =
    take (length (appended st st')) (phase_names phases) /\
  same_totals st st'.
Proof.
  intros Hrun. apply run_propagated in Hrun.
  pose proof (for_phases_prefix _ _ _ _ _ Hrun) as Hpre.
  pose proof (for_phases_frame _ _ _ _ _ Hrun) as (_ & Htot & _).
  apply for_phases_logs in Hrun as (new & Hn & _ & _ & He & Hlen).
  rewrite (appended_app _ _ _ Hn) in *. done.
Qed.

Lemma aborted_run_is_not_finalised_witness :
  exc_is_Exception (SystemExit "1") = false /\
  (length (appended fresh (snd (run fatal_registry fresh)))
     < length fatal_registry)%nat /\
  map ExecutionLog.phase (appended fresh (snd (run fatal_registry fresh))) =
    take (length (appended fresh (snd (run fatal_registry fresh))))
      (phase_names fatal_registry) /\
  same_totals fresh (snd (run fatal_registry fresh)).
Proof.
  apply (aborted_run_is_not_finalised fatal_registry fresh (SystemExit "1")
           (snd (run fatal_registry fresh))).
  vm_compute. reflexivity.
Defined.

(** The clock readings behind the records of the loop: the [k]-th phase
    takes the readings [3k], [3k+1] and [3k+2] counted from the start. *)
Lemma for_phases_times phases : forall c st c' st',
  for_phases phases c st = (Val c', st') ->
  forall (k : nat) l,
    appended st st' !! k = Some l ->
    ExecutionLog.timestamp l = clock st (ticks st + 3 * k + 2)%nat /\
    ExecutionLog.duration_ms l =
      elapsed_ms (clock st (ticks st + 3 * k)%nat)
                 (clock st (ticks st + 3 * k + 1)%nat).
Proof.
  induction phases as [|[p ex] rest IH]; intros c st c' st' H k l Hk.
  - injection H as <- <-. unfold appended in Hk. by rewrite drop_all in Hk.
  - rewrite for_phases_cons in H.
    destruct (execute_phase p (ex (self st)) st) as [[b|e] st1] eqn:E; [|done].
    pose proof (execute_phase_frame _ _ _ _ _ E) as (Hc & Ht & _).
    apply execute_phase_times in E as (l0 & Hl0 & Hts & Hd).
    pose proof (IH _ _ _ _ H) as Hrest.
    apply for_phases_logs in H as (new & Hn & _).
    rewrite (appended_app _ _ _ Hn) in Hrest.
    rewrite Hl0, <- app_assoc in Hn.
    rewrite (appended_app _ _ _ Hn) in Hk.
    destruct k as [|k]; cbn in Hk.
    + injection Hk as <-. rewrite Hts, Hd.
      by replace (ticks st + 3 * 0)%nat with (ticks st) by lia.
    + destruct (Hrest k l Hk) as [-> ->]. rewrite Hc, Ht.
      split; [f_equal; lia|]. f_equal; f_equal; lia.
Qed.

Lemma run_completed_clock phases st s st' :
  run phases st = (Val s, st') ->
  exists c st1 st2,
    for_phases phases 0%nat st = (Val c, st1) /\
    execute_phase SELF_TEST (phase_11_self_test (self st1)) st1 = (Val true, st2) /\
    logs_of st' = logs_of st2 /\
    fs st' = fs st2 /\
    ticks st' = S (ticks st2) /\
    Report.end_time (report_of st') = Some (clock st2 (ticks st2)).
Proof.
  unfold run at 1, bind at 1.
  destruct (for_phases phases 0%nat st) as [[c|e] st1] eqn:Hloop; [|done].
  unfold bind at 1, get_self. unfold bind at 1.
  destruct (self_test_step st1) as (st2 & l & d & t & E & _).
  rewrite E. unfold bind, now, modify_report, modify_self, ret.
  cbn [self fs clock ticks]. intros [= <- <-].
  exists c, st1, st2. repeat split; eauto.
Qed.

(** The clock readings of a complete run over N phases: three per phase
    and per self-test, and a last one for [end_time]. *)
Lemma run_times phases st s st' :
  run phases st = (Val s, st') ->
  Report.end_time (report_of st') =
    Some (clock st (ticks st + 3 * S (length phases))%nat) /\
  length (appended st st') = S (length phases) /\
  forall (k : nat) l,
    appended st st' !! k = Some l ->
    ExecutionLog.timestamp l = clock st (ticks st + 3 * k + 2)%nat /\
    ExecutionLog.duration_ms l =
      elapsed_ms (clock st (ticks st + 3 * k)%nat)
                 (clock st (ticks st + 3 * k + 1)%nat).
Proof.
  intros Hrun.
  destruct (run_completed_clock _ _ _ _ Hrun)
    as (c & st1 & st2 & Hloop & E & Hl & _ & _ & Hend).
  pose proof (for_phases_frame _ _ _ _ _ Hloop) as ((Hc & _) & _ & Ht).
  pose proof (for_phases_times _ _ _ _ _ Hloop) as Hbody.
  pose proof (execute_phase_frame _ _ _ _ _ E) as (Hc2 & Ht2 & _).
  apply execute_phase_times in E as (l0 & Hl0 & Hts & Hd).
  apply for_phases_logs in Hloop as (body & Hb & _ & _ & Hnames & _).
  rewrite (appended_app _ _ _ Hb) in Hbody.
  assert (Hlen : length body = length phases).
  { rewrite <- (length_map ExecutionLog.phase), Hnames.
    unfold phase_names. by rewrite length_map. }
  assert (Hall : logs_of st' = logs_of st ++ (body ++ [l0])).
  { by rewrite Hl, Hl0, Hb, <- app_assoc. }
  rewrite (appended_app _ _ _ Hall).
  split; [rewrite Hend, Hc2, Ht2, Hc, Ht; do 2 f_equal; lia|].
  split; [rewrite length_app; cbn; lia|].
  intros k l Hk. apply lookup_snoc_Some in Hk as [[Hlt Hk]|[-> <-]].
  - by apply Hbody.
  - rewrite Hts, Hd, Hc, Ht, Hlen.
    split; [f_equal; lia|]. f_equal; f_equal; lia.
Qed.

(** X: with a clock that never runs backwards, the records of a complete
    run are in chronological order, none has a negative duration, and
    none is stamped later than the report's [end_time]. *)
Theorem records_are_chronological
    (phases : list (Phase * Executor)) (st : State) (s : Summary) (st' : State) :
  nondecreasing (clock st) ->
  run phases st = (Val s, st') ->
  exists finish,
    Report.end_time (report_of st') = Some finish /\
    (forall (i j : nat) li lj,
       (i <= j)%nat ->
       appended st st' !! i = Some li ->
       appended st st' !! j = Some lj ->
       ExecutionLog.timestamp li <= ExecutionLog.timestamp lj) /\
    (forall l,
       l ∈ appended st st' ->
       (0 <= ExecutionLog.duration_ms l)%Q /\
       ExecutionLog.timestamp l <= finish).
Proof.
  intros Hmono Hrun.
  destruct (run_times _ _ _ _ Hrun) as (Hend & Hlen & Hk).
  eexists. split; [exact Hend|]. split.
  - intros i j li lj Hij Hi Hj.
    destruct (Hk _ _ Hi) as [-> _]. destruct (Hk _ _ Hj) as [-> _].
    apply Hmono. lia.
  - intros l Hl. apply list_elem_of_lookup in Hl as [k Hl].
    pose proof (lookup_lt_Some _ _ _ Hl) as Hlt. rewrite Hlen in Hlt.
    destruct (Hk _ _ Hl) as [-> ->]. split.
    + unfold elapsed_ms, Qle. cbn [Qnum Qden].
      assert (clock st (ticks st + 3 * k)%nat
              <= clock st (ticks st + 3 * k + 1)%nat) by (apply Hmono; lia).
      lia.
    + apply Hmono. lia.
Qed.

Lemma tick_clock_nondecreasing : nondecreasing tick_clock.
Proof. intros i j Hij. unfold tick_clock. lia. Qed.

Lemma records_are_chronological_witness :
  exists finish,
    Report.end_time (report_of (snd (run scenario fresh))) = Some finish /\
    (forall (i j : nat) li lj,
       (i <= j)%nat ->
       appended fresh (snd (run scenario fresh)) !! i = Some li ->
       appended fresh (snd (run scenario fresh)) !! j = Some lj ->
       ExecutionLog.timestamp li <= ExecutionLog.timestamp lj) /\
    (forall l,
       l ∈ appended fresh (snd (run scenario fresh)) ->
       (0 <= ExecutionLog.duration_ms l)%Q /\
       ExecutionLog.timestamp l <= finish).
Proof.
  apply (records_are_chronological scenario fresh scenario_summary
           (snd (run scenario fresh))).
  - exact tick_clock_nondecreasing.
  - vm_compute. reflexivity.
Defined.

Lemma for_phases_dom phases : forall c st c' st',
  for_phases phases c st = (Val c', st') ->
  dom (phases_of st') =
    dom (phases_of st) ∪ (list_to_set (phase_names phases) : gset string).
Proof.
  induction phases as [|[p ex] rest IH]; intros c st c' st' H.
  - injection H as <- <-. cbn. by rewrite (right_id_L ∅ (∪)).
  - rewrite for_phases_cons in H.
    destruct (execute_phase p (ex (self st)) st) as [[b|e] st1] eqn:E; [|done].
    apply execute_phase_result in E. apply IH in H. rewrite H.
    unfold phase_names. cbn [map fst list_to_set].
    assert (Hr : exists entry,
               phases_of st1 = <[Phase_name p := entry]> (phases_of st)).
    { inversion E; subst; eauto. }
    destruct Hr as [entry ->]. rewrite dom_insert_L.
    rewrite (comm_L (∪) {[Phase_name p]} (dom (phases_of st))).
    by rewrite (assoc_L (∪)).
Qed.

Lemma run_dom
    (phases : list (Phase * Executor)) (st : State) (s : Summary) (st' : State) :
  run phases st = (Val s, st') ->
  dom (phases_of st') =
    dom (phases_of st) ∪ (list_to_set (phase_names phases) : gset string)
      ∪ {[ Phase_name SELF_TEST ]}.
Proof.
  intros Hrun.
  apply run_completed in Hrun as (c & st1 & st2 & Hloop & E & _ & Hp & _).
  apply for_phases_dom in Hloop.
  destruct (self_test_step st1) as (st2' & l & d & t & E' & _ & _ & _ & _ & Hr).
  rewrite E in E'. injection E' as <-.
  rewrite Hp, Hr, dom_insert_L, Hloop. apply (comm_L (∪)).
Qed.

(** X: after a complete run the report's [phases] dictionary has, besides
    the keys it had before, exactly the names of the registered phases
    and the name of the self-test: one key per name, however often a
    name is registered. *)
Theorem report_keys_are_the_phase_names
    (phases : list (Phase * Executor)) (st : State) (s : Summary) (st' : State) :
  run phases st = (Val s, st') ->
  dom (phases_of st') =
    dom (phases_of st) ∪ (list_to_set (phase_names phases) : gset string)
      ∪ {[ Phase_name SELF_TEST ]}.
Proof. exact (run_dom phases st s st'). Qed.

Lemma report_keys_are_the_phase_names_witness :
  dom (phases_of (snd (run repeated_registry fresh))) =
    dom (phases_of fresh)
      ∪ (list_to_set (phase_names repeated_registry) : gset string)
      ∪ {[ Phase_name SELF_TEST ]}.
Proof.
  apply (report_keys_are_the_phase_names repeated_registry fresh
           {| phasen_erfolgreich := (1%nat, 2%nat);
              selbsttest := true; gesamtstatus := false |}
           (snd (run repeated_registry fresh))).
  vm_compute. reflexivity.
Defined.

Lemma count_status_all s records :
  count_status s records = length records <->
  Forall (fun l => ExecutionLog.status l = Status_value s) records.
Proof.
  unfold count_status. induction records as [|l records IH].
  - split; [constructor | reflexivity].
  - rewrite filter_cons. destruct (decide _) as [Hs|Hs]; cbn [length].
    + split.
      * intros [= H]. constructor; [done | by apply IH].
      * intros H. apply Forall_cons in H as [_ H]. f_equal. by apply IH.
    + split.
      * intros H.
        pose proof (length_filter
          (fun l => ExecutionLog.status l = Status_value s) records). lia.
      * intros H. by apply Forall_cons in H as [? _].
Qed.

Lemma count_status_partition records :
  Forall log_shape records ->
  (count_status SUCCESS records + count_status ERROR records)%nat
    = length records.
Proof.
  induction 1 as [|l records Hl _ IH]; [reflexivity|].
  change (l :: records) with ([l] ++ records).
  rewrite !count_status_app, !count_status_one. cbn [length app].
  destruct Hl as [[Hs _]|[Hs _]]; rewrite Hs.
  - rewrite decide_True by done.
    rewrite decide_False by exact status_glyphs_differ. lia.
  - rewrite decide_False by (intros H; by destruct status_glyphs_differ).
    rewrite decide_True by done. lia.
Qed.

(** ** The summary, with the self-test as an opaque action *)

Lemma run_is_run_with phases : run phases = run_with phase_11_self_test phases.
Proof. reflexivity. Qed.

Lemma run_with_completed self_test phases st s st' :
  run_with self_test phases st = (Val s, st') ->
  exists c st1 (b : bool) st2,
    for_phases phases 0%nat st = (Val c, st1) /\
    execute_phase SELF_TEST (self_test (self st1)) st1 = (Val b, st2) /\
    logs_of st' = logs_of st2 /\
    Report.success_count (report_of st') = Some c /\
    Report.total_phases (report_of st') = Some (length phases) /\
    s = {| phasen_erfolgreich := (c, length phases);
           selbsttest := b;
           gesamtstatus := bool_decide (c = length phases) && b |}.
Proof.
  unfold run_with at 1, bind at 1.
  destruct (for_phases phases 0%nat st) as [[c|e] st1] eqn:Hloop; [|done].
  unfold bind at 1, get_self. unfold bind at 1.
  destruct (execute_phase SELF_TEST (self_test (self st1)) st1)
    as [[b|e] st2] eqn:E; [|done].
  unfold bind, now, modify_report, modify_self, ret.
  cbn [self fs clock ticks]. intros [= <- <-].
  exists c, st1, b, st2. repeat split; eauto.
Qed.

(** The records of a complete run: those of the loop, then the
    self-test's. *)
Lemma run_with_records self_test phases st s st' :
  run_with self_test phases st = (Val s, st') ->
  exists c st1 body l,
    for_phases phases 0%nat st = (Val c, st1) /\
    appended st st' = body ++ [l] /\
    length body = length phases /\
    Forall log_shape body /\
    c = count_status SUCCESS body /\
    Report.success_count (report_of st') = Some c /\
    phasen_erfolgreich s = (c, length phases) /\
    gesamtstatus s = bool_decide (c = length phases) && selbsttest s /\
    ExecutionLog.phase l = Phase_name SELF_TEST /\
    ExecutionLog.status l =
      Status_value (if selbsttest s then SUCCESS else ERROR) /\
    (selbsttest s = true <->
     exists v files', self_test (self st1) (fs st1) = (Returns v, files')).
Proof.
  intros Hrun.
  apply run_with_completed in Hrun
    as (c & st1 & b & st2 & Hloop & E & Hl & Hsc & _ & ->).
  pose proof Hloop as Hloop'.
  apply for_phases_logs in Hloop' as (body & Hb & Hsh & _ & Hnames & Hc).
  apply execute_phase_result in E.
  assert (Hlen : length body = length phases).
  { rewrite <- (length_map ExecutionLog.phase), Hnames.
    unfold phase_names. by rewrite length_map. }
  exists c, st1, body.
  inversion E as [v f1 ? l d t Ha Hl2 Hp Hs He Hr Hf Hbp
                 |e f1 ? l d Ha Hx Hl2 Hp Hs He Hr Hf Hbp
                 |]; subst; exists l;
    (split; [done|]);
    (split; [apply appended_app; by rewrite Hl, Hl2, Hb, <- app_assoc|]);
    cbn [phasen_erfolgreich selbsttest gesamtstatus];
    repeat (split; [done|]).
  - split; [by eauto|done].
  - intros (v & files' & Hv). congruence.
Qed.

(** X: the summary of a complete run, the self-test being any action.
    The printed total is [len(phases)] and the printed count is the one
    stored in the report.  The self-test is reported as passed exactly
    when its action returned, whatever value it returned, that is
    exactly when its record, the last of the log, has status success.
    The overall status is successful exactly when every record the run
    appended has status success. *)
Theorem summary_of_a_complete_run
    (self_test : Executor) (phases : list (Phase * Executor))
    (st : State) (s : Summary) (st' : State) :
  run_with self_test phases st = (Val s, st') ->
  snd (phasen_erfolgreich s) = length phases /\
  Report.success_count (report_of st') = Some (fst (phasen_erfolgreich s)) /\
  (exists l,
     last (appended st st') = Some l /\
     ExecutionLog.phase l = Phase_name SELF_TEST /\
     (selbsttest s = true <->
      ExecutionLog.status l = Status_value SUCCESS)) /\
  (exists c st1,
     for_phases phases 0%nat st = (Val c, st1) /\
     (selbsttest s = true <->
      exists v files', self_test (self st1) (fs st1) = (Returns v, files'))) /\
  (gesamtstatus s = true <->
   Forall (fun l => ExecutionLog.status l = Status_value SUCCESS)
     (appended st st')).
Proof.
  intros Hrun.
  destruct (run_with_records _ _ _ _ _ Hrun)
    as (c & st1 & body & l & Hloop & -> & Hlen & Hsh & Hc & Hsc & Hpe & Hg
        & Hp & Hs & Hret).
  rewrite Hpe, Hg. cbn [fst snd].
  split; [done|]. split; [done|]. split; [|split].
  - exists l. split; [apply last_snoc|]. split; [done|].
    rewrite Hs. destruct (selbsttest s); [done|].
    split; [done|]. intros H. by destruct status_glyphs_differ.
  - by exists c, st1.
  - rewrite andb_true_iff, bool_decide_eq_true, Hc, <- Hlen, count_status_all.
    rewrite Forall_app, Forall_singleton, Hs.
    destruct (selbsttest s); [tauto|].
    split; [by intros [_ [=]]|].
    intros [_ H]. by destruct status_glyphs_differ.
Qed.

Lemma summary_of_a_complete_run_witness :
  snd (phasen_erfolgreich
         {| phasen_erfolgreich := (2%nat, 3%nat);
            selbsttest := false; gesamtstatus := false |}) = length scenario /\
  Report.success_count
    (report_of (snd (run_with (fails (PermissionError "genesis_core/core"))
                       scenario fresh)))
    = Some (fst (phasen_erfolgreich
                   {| phasen_erfolgreich := (2%nat, 3%nat);
                      selbsttest := false; gesamtstatus := false |})) /\
  (exists l,
     last (appended fresh
             (snd (run_with (fails (PermissionError "genesis_core/core"))
                     scenario fresh))) = Some l /\
     ExecutionLog.phase l = Phase_name SELF_TEST /\
     (false = true <-> ExecutionLog.status l = Status_value SUCCESS)) /\
  (exists c st1,
     for_phases scenario 0%nat fresh = (Val c, st1) /\
     (false = true <->
      exists v files',
        fails (PermissionError "genesis_core/core") (self st1) (fs st1)
          = (Returns v, files'))) /\
  (false = true <->
   Forall (fun l => ExecutionLog.status l = Status_value SUCCESS)
     (appended fresh
        (snd (run_with (fails (PermissionError "genesis_core/core"))
                scenario fresh)))).
Proof.
  apply (summary_of_a_complete_run
           (fails (PermissionError "genesis_core/core")) scenario fresh
           {| phasen_erfolgreich := (2%nat, 3%nat);
              selbsttest := false; gesamtstatus := false |}
           (snd (run_with (fails (PermissionError "genesis_core/core"))
                   scenario fresh))).
  vm_compute. reflexivity.
Defined.

(** X: in a complete run, the self-test being any action, every
    registered phase is recorded once, as a success or as an error: the
    number of error records among those of the registered phases is
    [total_phases - success_count]; the self-test adds one success
    record when it is reported as passed and one error record when it
    is not. *)
Theorem error_records_complement_success_count
    (self_test : Executor) (phases : list (Phase * Executor))
    (st : State) (s : Summary) (st' : State) :
  run_with self_test phases st = (Val s, st') ->
  exists n,
    Report.success_count (report_of st') = Some n /\
    (n <= length phases)%nat /\
    count_status ERROR (take (length phases) (appended st st'))
      = (length phases - n)%nat /\
    count_status ERROR (appended st st')
      = (length phases - n + if selbsttest s then 0 else 1)%nat /\
    count_status SUCCESS (appended st st')
      = (n + if selbsttest s then 1 else 0)%nat.
Proof.
  intros Hrun.
  destruct (run_with_records _ _ _ _ _ Hrun)
    as (c & st1 & body & l & Hloop & -> & Hlen & Hsh & Hc & Hsc & Hpe & Hg
        & Hp & Hs & Hret).
  pose proof (count_status_partition body Hsh) as Hpart.
  exists c. split; [done|].
  rewrite <- Hlen, take_app_length, !count_status_app, !count_status_one, Hs.
  destruct (selbsttest s).
  - destruct (decide (Status_value SUCCESS = Status_value ERROR)) as [H|_];
      [by destruct status_glyphs_differ|].
    destruct (decide (Status_value SUCCESS = Status_value SUCCESS)); [|done].
    repeat split; lia.
  - destruct (decide (Status_value ERROR = Status_value SUCCESS)) as [H|_];
      [by destruct status_glyphs_differ|].
    destruct (decide (Status_value ERROR = Status_value ERROR)); [|done].
    repeat split; lia.
Qed.

Lemma error_records_complement_success_count_witness :
  exists n,
    Report.success_count
      (report_of (snd (run_with (fails (PermissionError "genesis_core/core"))
                         scenario fresh))) = Some n /\
    (n <= length scenario)%nat /\
    count_status ERROR
      (take (length scenario)
         (appended fresh
            (snd (run_with (fails (PermissionError "genesis_core/core"))
                    scenario fresh))))
      = (length scenario - n)%nat /\
    count_status ERROR
      (appended fresh
         (snd (run_with (fails (PermissionError "genesis_core/core"))
                 scenario fresh)))
      = (length scenario - n + if false then 0 else 1)%nat /\
    count_status SUCCESS
      (appended fresh
         (snd (run_with (fails (PermissionError "genesis_core/core"))
                 scenario fresh)))
      = (n + if false then 1 else 0)%nat.
Proof.
  apply (error_records_complement_success_count
           (fails (PermissionError "genesis_core/core")) scenario fresh
           {| phasen_erfolgreich := (2%nat, 3%nat);
              selbsttest := false; gesamtstatus := false |}
           (snd (run_with (fails (PermissionError "genesis_core/core"))
                   scenario fresh))).
  vm_compute. reflexivity.
Defined.

(** ** The self-test's verdict *)

Lemma all_checks_forallb checks : forall all_passed,
  all_checks checks all_passed = all_passed && forallb snd checks.
Proof.
  induction checks as [|[name result] rest IH]; intros all_passed; cbn.
  - by rewrite andb_true_r.
  - by rewrite IH, andb_assoc.
Qed.

(** When every probe answers, the dictionary holds the answers. *)
Lemma evaluate_checks_answers probe table :
  Forall (fun entry : string * string =>
            exists result, probe (snd entry) = inr result) table ->
  exists checks,
    evaluate_checks probe table = inr checks /\
    (forallb snd checks = true <->
     Forall (fun entry : string * string => probe (snd entry) = inr true)
            table).
Proof.
  induction 1 as [|[name path] rest [result Hr] _ (checks & IH & Hiff)].
  - exists []. split; [done|]. split; [constructor | done].
  - cbn [evaluate_checks]. cbn [snd] in Hr. rewrite Hr, IH.
    exists ((name, result) :: checks). split; [done|].
    cbn [forallb snd]. rewrite andb_true_iff, Forall_cons, Hiff.
    cbn [snd]. rewrite Hr. split.
    + by intros [-> ?].
    + by intros [[= ->] ?].
Qed.

(** The first probe that raises ends the evaluation. *)
Lemma evaluate_checks_raises probe before name path after e :
  Forall (fun entry : string * string =>
            exists result, probe (snd entry) = inr result) before ->
  probe path = inl e ->
  evaluate_checks probe (before ++ (name, path) :: after) = inl e.
Proof.
  induction 1 as [|[name' path'] rest [result Hr] _ IH]; intros He.
  - cbn [app evaluate_checks]. by rewrite He.
  - cbn [app evaluate_checks]. cbn [snd] in Hr. by rewrite Hr, IH.
Qed.

(** X: the self-test, over probes that may raise.  It never changes the
    files.  Its probes are evaluated in the order of the table: the
    first that raises ends the function with its exception.  When every
    probe answers, the function returns, and the value is [True]
    exactly when every one of the ten probes answered [True]: a probe
    that fails does not stop the later ones from counting.  With
    [exists] the membership test of the model, this is
    [phase_11_self_test]. *)
Theorem self_test_verdict
    (probe : Probe) (bootstrap : GenesisBootstrap.t) (files : gset string) :
  snd (phase_11_self_test_with probe bootstrap files) = files /\
  (Forall (fun entry : string * string =>
             exists result, probe (snd entry) = inr result)
          (self_test_table (GenesisBootstrap.base_path bootstrap)) ->
   exists verdict,
     phase_11_self_test_with probe bootstrap files
       = (Returns (PyBool verdict), files) /\
     (verdict = true <->
      Forall (fun entry : string * string => probe (snd entry) = inr true)
             (self_test_table (GenesisBootstrap.base_path bootstrap)))) /\
  (forall before name path after e,
     self_test_table (GenesisBootstrap.base_path bootstrap)
       = before ++ (name, path) :: after ->
     Forall (fun entry : string * string =>
               exists result, probe (snd entry) = inr result) before ->
     probe path = inl e ->
     phase_11_self_test_with probe bootstrap files = (Raises e, files)) /\
  phase_11_self_test bootstrap files
    = phase_11_self_test_with (fun path => inr (path_exists files path))
        bootstrap files.
Proof.
  split; [|split; [|split]].
  - unfold phase_11_self_test_with. by destruct (evaluate_checks _ _).
  - intros Hall. unfold phase_11_self_test_with.
    destruct (evaluate_checks_answers _ _ Hall) as (checks & -> & Hiff).
    eexists. split; [reflexivity|].
    by rewrite all_checks_forallb, andb_true_l.
  - intros before name path after e Htable Hbefore He.
    unfold phase_11_self_test_with.
    by rewrite Htable, (evaluate_checks_raises _ _ _ _ _ _ Hbefore He).
  - reflexivity.
Qed.

Example self_test_with_unreadable_directory :
  phase_11_self_test_with sample_probe (self fresh) (fs fresh)
    = (Raises (PermissionError "genesis_core/core/config.py"), fs fresh).
Proof. reflexivity. Qed.

(** ** Paths *)

Lemma append_cons c (s t : string) : String c s +:+ t = String c (s +:+ t).
Proof. reflexivity. Qed.

Lemma append_nil_r (s : string) : s +:+ "" = s.
Proof.
  induction s as [|c s IH]; [reflexivity|]. by rewrite append_cons, IH.
Qed.

Lemma append_snoc (s : string) c t :
  (s +:+ String c "") +:+ t = s +:+ String c t.
Proof.
  induction s as [|c' s IH]; [reflexivity|]. by rewrite !append_cons, IH.
Qed.

Lemma append_assoc (a b c : string) : (a +:+ b) +:+ c = a +:+ (b +:+ c).
Proof.
  induction a as [|x a IH]; [reflexivity|]. by rewrite !append_cons, IH.
Qed.

Lemma joinpath_assoc a b c : (a // b) // c = a // (b // c).
Proof. unfold joinpath. by rewrite append_assoc. Qed.

Lemma path_prefixes_app a : forall seen b,
  path_prefixes seen (a +:+ b) =
    path_prefixes seen a ++ path_prefixes (seen +:+ a) b.
Proof.
  induction a as [|c a IH]; intros seen b.
  - by rewrite append_nil_r.
  - rewrite append_cons. cbn [path_prefixes]. destruct (Ascii.eqb c "/") eqn:Hc.
    + apply Ascii.eqb_eq in Hc as ->.
      by rewrite IH, append_snoc.
    + by rewrite IH, append_snoc.
Qed.

Lemma path_prefixes_no_slash name :
  no_slash name = true -> forall seen, path_prefixes seen name = [].
Proof.
  induction name as [|c name IH]; cbn; [done|].
  intros [Hc Hn]%andb_true_iff seen.
  apply negb_true_iff in Hc. rewrite Hc. by apply IH.
Qed.

Lemma Path_parents_joinpath dir name :
  no_slash name = true ->
  Path_parents (dir // name) = Path_parents dir ++ [dir].
Proof.
  intros Hn. unfold Path_parents, joinpath.
  rewrite path_prefixes_app.
  change ("/" +:+ name) with (String "/" name).
  change ("" +:+ dir) with dir.
  cbn [path_prefixes]. change (Ascii.eqb "/" "/") with true. cbn iota.
  by rewrite (path_prefixes_no_slash _ Hn).
Qed.

Lemma Path_parent_joinpath dir name :
  no_slash name = true -> Path_parent (dir // name) = Some dir.
Proof.
  intros Hn. unfold Path_parent.
  rewrite (Path_parents_joinpath _ _ Hn). apply last_snoc.
Qed.

Lemma write_text_exists dir name files :
  no_slash name = true -> dir ∈ files ->
  write_text (dir // name) files = (None, {[ dir // name ]} ∪ files).
Proof.
  intros Hn Hd. unfold write_text.
  by rewrite (Path_parent_joinpath _ _ Hn), bool_decide_true.
Qed.

Lemma write_text_missing dir name files :
  no_slash name = true -> dir ∉ files ->
  write_text (dir // name) files =
    (Some (FileNotFoundError (dir // name)), files).
Proof.
  intros Hn Hd. unfold write_text.
  by rewrite (Path_parent_joinpath _ _ Hn), bool_decide_false.
Qed.

(** ** The phase functions that write one module *)

(** X: each of the phase functions 2 to 10 depends on its directory.
    When the directory of its module exists it adds the module's file
    and returns [True]; when the directory is missing it raises
    [FileNotFoundError] for the module's path and leaves the files as
    they were. *)
Theorem module_phase_needs_its_directory :
  Forall (fun entry : Executor * string * string =>
    let '(executor, directory, name) := entry in
    forall (bootstrap : GenesisBootstrap.t) (files : gset string),
      let base := GenesisBootstrap.base_path bootstrap in
      (base // directory ∈ files ->
       executor bootstrap files =
         (Returns (PyBool true), {[ base // directory // name ]} ∪ files)) /\
      (base // directory ∉ files ->
       executor bootstrap files =
         (Raises (FileNotFoundError (base // directory // name)), files)))
    module_phases.
Proof.
  unfold module_phases.
  repeat (constructor;
    [ intros bootstrap files; cbn zeta;
      set (base := GenesisBootstrap.base_path bootstrap);
      unfold phase_2_config_management, phase_3_logging_system,
        phase_4_database_models, phase_5_ast_analyzer,
        phase_6_dci_validation, phase_7_ai_commander, phase_8_orchestrator,
        phase_9_injection_engine, phase_10_dashboard_backend;
      cbn zeta; fold base;
      rewrite ?(joinpath_assoc base "shared" "logger"),
        ?(joinpath_assoc base "shared" "database");
      change ("shared" // "logger") with "shared/logger";
      change ("shared" // "database") with "shared/database";
      split; intros Hdir;
      [ by rewrite write_text_exists | by rewrite write_text_missing ]
    | ]).
  constructor.
Qed.

(** ** Phase 1 *)

Lemma foldl_mkdir_parents base directories : forall files,
  foldl (fun made directory => mkdir_parents (base // directory) made)
        files directories
  = ⋃ (map (made_by_mkdir base) directories) ∪ files.
Proof.
  induction directories as [|d rest IH]; intros files; cbn [foldl map union_list foldr].
  - by rewrite (left_id_L ∅ (∪)).
  - rewrite IH. unfold mkdir_parents. fold (made_by_mkdir base d).
    rewrite (assoc_L (∪)). f_equal. apply (comm_L (∪)).
Qed.

Lemma write_each_in_directory dir names : forall files,
  Forall (fun name => no_slash name = true) names ->
  dir ∈ files ->
  write_each (map (fun name => dir // name) names) files
  = (None, list_to_set (map (fun name => dir // name) names) ∪ files).
Proof.
  induction names as [|name rest IH]; intros files Hn Hd;
    cbn [map write_each list_to_set].
  - by rewrite (left_id_L ∅ (∪)).
  - apply Forall_cons in Hn as [Hname Hrest].
    rewrite (write_text_exists _ _ _ Hname Hd).
    rewrite IH; [|done|by apply elem_of_union_r].
    f_equal. rewrite (assoc_L (∪)). f_equal. apply (comm_L (∪)).
Qed.

Lemma elem_of_union_map (g : string -> gset string) directories d y :
  d ∈ directories -> y ∈ g d -> y ∈ ⋃ (map g directories).
Proof.
  induction directories as [|d' rest IH]; intros Hd Hy.
  - by apply elem_of_nil in Hd.
  - cbn [map union_list foldr].
    apply elem_of_cons in Hd as [<-|Hd];
      [by apply elem_of_union_l | apply elem_of_union_r; by apply IH].
Qed.

Lemma directory_in_created base d :
  d ∈ phase_1_directories -> base // d ∈ phase_1_created base.
Proof.
  intros Hd. apply elem_of_union_r.
  apply (elem_of_union_map (made_by_mkdir base) _ d); [done|].
  unfold made_by_mkdir. by apply elem_of_union_l, elem_of_singleton.
Qed.

Lemma listed_directory_in_created base path :
  path ∈ map (fun d => base // d) phase_1_directories ->
  path ∈ phase_1_created base.
Proof.
  intros Hp. apply list_elem_of_In, in_map_iff in Hp as (d & <- & Hd).
  by apply directory_in_created, list_elem_of_In.
Qed.

Lemma base_in_created base : base ∈ phase_1_created base.
Proof.
  apply elem_of_union_r.
  apply (elem_of_union_map (made_by_mkdir base) _ "core"); [by left|].
  unfold made_by_mkdir. apply elem_of_union_r, elem_of_list_to_set.
  rewrite Path_parents_joinpath by reflexivity.
  apply elem_of_app. right. by left.
Qed.

Lemma file_in_created base name :
  name ∈ phase_1_files -> base // name ∈ phase_1_created base.
Proof.
  intros Hn. apply elem_of_union_l, elem_of_list_to_set.
  apply list_elem_of_In, in_map. by apply list_elem_of_In.
Qed.

(** Phase 1 writes its files into the directory it has just made, so it
    always gets to [return True]. *)
Lemma phase_1_filesystem_init_returns bootstrap files :
  phase_1_filesystem_init bootstrap files =
    (Returns (PyBool true),
     phase_1_created (GenesisBootstrap.base_path bootstrap) ∪ files).
Proof.
  unfold phase_1_filesystem_init. cbn zeta.
  set (base := GenesisBootstrap.base_path bootstrap).
  rewrite foldl_mkdir_parents, write_each_in_directory.
  - cbn [return_True]. unfold phase_1_created. by rewrite (assoc_L (∪)).
  - unfold phase_1_files. by repeat constructor.
  - apply elem_of_union_l.
    apply (elem_of_union_map (made_by_mkdir base) _ "core"); [by left|].
    unfold made_by_mkdir. apply elem_of_union_r, elem_of_list_to_set.
    rewrite Path_parents_joinpath by reflexivity.
    apply elem_of_app. right. by left.
Qed.

(** X: phase 1 prepares the ground for the phases that follow.  It
    always returns [True]; it removes nothing; and afterwards the base
    directory, each of the fifteen directories, each of the four
    configuration files, and the directory of every module that phases 2
    to 10 write are there. *)
Theorem phase_1_prepares_the_ground
    (bootstrap : GenesisBootstrap.t) (files : gset string) :
  exists files',
    phase_1_filesystem_init bootstrap files = (Returns (PyBool true), files') /\
    files ⊆ files' /\
    GenesisBootstrap.base_path bootstrap ∈ files' /\
    Forall (fun directory =>
              GenesisBootstrap.base_path bootstrap // directory ∈ files')
           phase_1_directories /\
    Forall (fun filename =>
              GenesisBootstrap.base_path bootstrap // filename ∈ files')
           phase_1_files /\
    Forall (fun entry : Executor * string * string =>
              let '(_, directory, _) := entry in
              GenesisBootstrap.base_path bootstrap // directory ∈ files')
           module_phases.
Proof.
  eexists. split; [apply phase_1_filesystem_init_returns|].
  split; [apply union_subseteq_r|].
  split; [apply elem_of_union_l, base_in_created|].
  split; [|split].
  - apply Forall_forall. intros d Hd.
    by apply elem_of_union_l, directory_in_created.
  - apply Forall_forall. intros f Hf.
    by apply elem_of_union_l, file_in_created.
  - unfold module_phases.
    repeat (constructor;
      [apply elem_of_union_l, directory_in_created; compute_done|]).
    constructor.
Qed.

(** ** Running a phase function again *)

Lemma return_True_write_text path files :
  (forall v files',
     return_True (write_text path files) = (Returns v, files') ->
     v = PyBool true /\ files' = {[ path ]} ∪ files /\
     return_True (write_text path files') = (Returns v, files')) /\
  (forall e files',
     return_True (write_text path files) = (Raises e, files') ->
     files' = files /\ e = FileNotFoundError path).
Proof.
  unfold write_text. destruct (Path_parent path) as [directory|].
  - destruct (bool_decide (directory ∈ files)) eqn:Hd; cbn [return_True].
    + apply bool_decide_eq_true in Hd. split; [|done].
      intros v files' [= <- <-]. split; [done|]. split; [done|].
      rewrite bool_decide_true by (by apply elem_of_union_r).
      cbn [return_True]. by rewrite (assoc_L (∪)), (idemp_L (∪)).
    + split; [done|]. by intros e files' [= <- <-].
  - cbn [return_True]. split; [|done].
    intros v files' [= <- <-]. split; [done|]. split; [done|].
    by rewrite (assoc_L (∪)), (idemp_L (∪)).
Qed.

(** X: every phase function can be run again.  When it returned [True]
    it removed no path, and running it once more on the files it left
    returns [True] again and adds no further path. *)
Theorem phase_functions_can_be_rerun :
  Forall (fun executor : Executor =>
    forall (bootstrap : GenesisBootstrap.t) (files : gset string) v files',
      executor bootstrap files = (Returns v, files') ->
      v = PyBool true /\ files ⊆ files' /\
      executor bootstrap files' = (Returns v, files'))
    phase_functions.
Proof.
  unfold phase_functions. constructor.
  - intros bootstrap files v files'.
    rewrite phase_1_filesystem_init_returns. intros [= <- <-].
    split; [done|]. split; [apply union_subseteq_r|].
    rewrite phase_1_filesystem_init_returns.
    by rewrite (assoc_L (∪)), (idemp_L (∪)).
  - repeat (constructor;
      [ intros bootstrap files v files';
        unfold phase_2_config_management, phase_3_logging_system,
          phase_4_database_models, phase_5_ast_analyzer,
          phase_6_dci_validation, phase_7_ai_commander, phase_8_orchestrator,
          phase_9_injection_engine, phase_10_dashboard_backend;
        cbn zeta;
        match goal with
        | |- context [write_text ?path files] =>
            destruct (return_True_write_text path files) as [Hok _]
        end;
        intros H; destruct (Hok _ _ H) as (-> & -> & Hagain);
        split; [done|]; split; [apply union_subseteq_r | exact Hagain]
      | ]).
    constructor.
Qed.

(** ** The run of [main] with its own phase functions *)

Lemma for_phases_step_returns p ex st v files' :
  ex (self st) (fs st) = (Returns v, files') ->
  exists st1,
    fs st1 = files' /\
    GenesisBootstrap.base_path (self st1) = GenesisBootstrap.base_path (self st) /\
    forall rest c,
      for_phases ((p, ex) :: rest) c st = for_phases rest (S c) st1.
Proof.
  intros Ha.
  destruct (execute_phase_returns p _ _ _ _ Ha)
    as (st1 & l & d & t & E & _ & _ & _ & _ & _ & Hf & Hb).
  exists st1. split; [done|]. split; [done|].
  intros rest c. by rewrite for_phases_cons, E.
Qed.

Lemma for_phases_step_raises p ex st e files' :
  ex (self st) (fs st) = (Raises e, files') ->
  exc_is_Exception e = true ->
  exists st1,
    fs st1 = files' /\
    GenesisBootstrap.base_path (self st1) = GenesisBootstrap.base_path (self st) /\
    forall rest c,
      for_phases ((p, ex) :: rest) c st = for_phases rest c st1.
Proof.
  intros Ha He.
  destruct (execute_phase_raises p _ _ _ _ Ha He)
    as (st1 & l & d & E & _ & _ & _ & _ & _ & _ & Hf & Hb).
  exists st1. split; [done|]. split; [done|].
  intros rest c. by rewrite for_phases_cons, E.
Qed.

(** A phase that writes the module [dir // name]. *)
Lemma for_phases_step_write p (ex : Executor) st dir name :
  ex (self st) (fs st) = return_True (write_text (dir // name) (fs st)) ->
  no_slash name = true ->
  (dir ∈ fs st ->
   exists st1,
     fs st1 = {[ dir // name ]} ∪ fs st /\
     GenesisBootstrap.base_path (self st1) = GenesisBootstrap.base_path (self st) /\
     forall rest c,
       for_phases ((p, ex) :: rest) c st = for_phases rest (S c) st1) /\
  (dir ∉ fs st ->
   exists st1,
     fs st1 = fs st /\
     GenesisBootstrap.base_path (self st1) = GenesisBootstrap.base_path (self st) /\
     forall rest c,
       for_phases ((p, ex) :: rest) c st = for_phases rest c st1).
Proof.
  intros Hex Hn. split; intros Hd.
  - rewrite (write_text_exists _ _ _ Hn Hd) in Hex.
    exact (for_phases_step_returns p ex st _ _ Hex).
  - rewrite (write_text_missing _ _ _ Hn Hd) in Hex.
    exact (for_phases_step_raises p ex st _ _ Hex eq_refl).
Qed.

Lemma run_from_loop phases st c st1 :
  for_phases phases 0%nat st = (Val c, st1) ->
  exists st',
    run phases st =
      (Val {| phasen_erfolgreich := (c, length phases);
              selbsttest := true;
              gesamtstatus := bool_decide (c = length phases) && true |},
       st') /\
    fs st' = fs st1 /\
    GenesisBootstrap.base_path (self st') = GenesisBootstrap.base_path (self st1).
Proof.
  intros Hloop.
  destruct (execute_phase_returns SELF_TEST (phase_11_self_test (self st1)) st1
              _ _ (phase_11_self_test_returns (self st1) (fs st1)))
    as (st2 & l & d & t & E & _ & _ & _ & _ & _ & Hf & Hb).
  unfold run, bind at 1. rewrite Hloop.
  unfold bind at 1, get_self. unfold bind at 1. rewrite E.
  unfold bind, now, modify_report, modify_self, ret.
  cbn [self fs clock ticks]. eexists. split; [reflexivity|]. by cbn.
Qed.

(** Looks for a path in a union of sets, among the singletons and in
    what phase 1 has made. *)
Ltac in_union :=
  match goal with
  | |- _ ∈ {[ _ ]} => apply elem_of_singleton; reflexivity
  | |- _ ∈ phase_1_created _ =>
      apply listed_directory_in_created; compute_done
  | |- _ ∈ _ ∪ _ =>
      first [ apply elem_of_union_l; in_union
            | apply elem_of_union_r; in_union ]
  | |- _ => assumption
  end.

(** One step of the loop for a phase function that writes the module
    [dir // name] below the base path ["genesis_core"]. *)
Ltac write_step p ex dir name st Hb :=
  let Hex := fresh "Hex" in
  assert (Hex : ex (self st) (fs st)
                = return_True (write_text (dir // name) (fs st)))
    by (unfold ex; cbn zeta; rewrite Hb; reflexivity);
  pose proof (for_phases_step_write p ex st dir name Hex eq_refl);
  clear Hex.

(** X: on a file system that behaves, a run of [main] with its own
    phase functions succeeds in all ten phases, whatever files were
    there before and whatever the clock says; it removes none of those
    files; and the self-test, run on the files the run leaves, finds
    every one of its ten artifacts. *)
Theorem clean_run_passes_its_self_test (files : gset string) (clk : nat -> Z) :
  exists st',
    main_program files clk =
      (Val {| phasen_erfolgreich := (10%nat, 10%nat);
              selbsttest := true; gesamtstatus := true |}, st') /\
    files ⊆ fs st' /\
    phase_11_self_test (self st') (fs st') = (Returns (PyBool true), fs st').
Proof.
  unfold main_program, main, main_phases.
  set (st0 := GenesisBootstrap_init "./genesis_core" files clk).
  assert (Hb0 : GenesisBootstrap.base_path (self st0) = "genesis_core")
    by reflexivity.
  assert (Hf0 : files ⊆ fs st0) by apply union_subseteq_r.
  destruct (for_phases_step_returns FILESYSTEM phase_1_filesystem_init
              st0 _ _ (phase_1_filesystem_init_returns (self st0) (fs st0)))
    as (st1 & Hf1 & Hb1 & E1).
  rewrite Hb0 in Hf1, Hb1.
  write_step CONFIG_MGMT phase_2_config_management
    ("genesis_core" // "core") "config.py" st1 Hb1.
  destruct H as [[st2 (Hf2 & Hb2 & E2)] _]; [rewrite Hf1; in_union|].
  rewrite Hb1 in Hb2. rewrite Hf1 in Hf2.
  write_step LOGGING phase_3_logging_system
    ("genesis_core" // "shared" // "logger") "structured_logger.py" st2 Hb2.
  destruct H as [[st3 (Hf3 & Hb3 & E3)] _]; [rewrite Hf2; in_union|].
  rewrite Hb2 in Hb3. rewrite Hf2 in Hf3.
  write_step DATABASE phase_4_database_models
    ("genesis_core" // "shared" // "database") "models.py" st3 Hb3.
  destruct H as [[st4 (Hf4 & Hb4 & E4)] _]; [rewrite Hf3; in_union|].
  rewrite Hb3 in Hb4. rewrite Hf3 in Hf4.
  write_step ANALYZER phase_5_ast_analyzer
    ("genesis_core" // "core") "analyzer.py" st4 Hb4.
  destruct H as [[st5 (Hf5 & Hb5 & E5)] _]; [rewrite Hf4; in_union|].
  rewrite Hb4 in Hb5. rewrite Hf4 in Hf5.
  write_step QUALITY_GATES phase_6_dci_validation
    ("genesis_core" // "core") "dci.py" st5 Hb5.
  destruct H as [[st6 (Hf6 & Hb6 & E6)] _]; [rewrite Hf5; in_union|].
  rewrite Hb5 in Hb6. rewrite Hf5 in Hf6.
  write_step AI_COMMANDER phase_7_ai_commander
    ("genesis_core" // "core") "ai_commander.py" st6 Hb6.
  destruct H as [[st7 (Hf7 & Hb7 & E7)] _]; [rewrite Hf6; in_union|].
  rewrite Hb6 in Hb7. rewrite Hf6 in Hf7.
  write_step ORCHESTRATOR phase_8_orchestrator
    ("genesis_core" // "core") "orchestrator.py" st7 Hb7.
  destruct H as [[st8 (Hf8 & Hb8 & E8)] _]; [rewrite Hf7; in_union|].
  rewrite Hb7 in Hb8. rewrite Hf7 in Hf8.
  write_step INJECTION_ENGINE phase_9_injection_engine
    ("genesis_core" // "core") "injection_engine.py" st8 Hb8.
  destruct H as [[st9 (Hf9 & Hb9 & E9)] _]; [rewrite Hf8; in_union|].
  rewrite Hb8 in Hb9. rewrite Hf8 in Hf9.
  write_step DASHBOARD phase_10_dashboard_backend
    ("genesis_core" // "api") "server.py" st9 Hb9.
  destruct H as [[st10 (Hf10 & Hb10 & E10)] _]; [rewrite Hf9; in_union|].
  rewrite Hb9 in Hb10. rewrite Hf9 in Hf10.
  destruct (run_from_loop
              [ (FILESYSTEM, phase_1_filesystem_init);
                (CONFIG_MGMT, phase_2_config_management);
                (LOGGING, phase_3_logging_system);
                (DATABASE, phase_4_database_models);
                (ANALYZER, phase_5_ast_analyzer);
                (QUALITY_GATES, phase_6_dci_validation);
                (AI_COMMANDER, phase_7_ai_commander);
                (ORCHESTRATOR, phase_8_orchestrator);
                (INJECTION_ENGINE, phase_9_injection_engine);
                (DASHBOARD, phase_10_dashboard_backend) ]
              st0 10%nat st10) as (st' & Hrun & Hf' & Hb').
  { rewrite E1, E2, E3, E4, E5, E6, E7, E8, E9, E10. reflexivity. }
  exists st'. split; [exact Hrun|]. rewrite Hf', Hf10. split.
  - intros x Hx. apply Hf0 in Hx. in_union.
  - rewrite phase_11_self_test_returns, Hb', Hb10. do 3 f_equal.
    rewrite all_checks_forallb, andb_true_l.
    unfold self_test_checks, path_exists. cbn [forallb snd].
    repeat (apply andb_true_intro; split;
            [apply bool_decide_eq_true_2; in_union|]).
    reflexivity.
Qed.

Lemma fresh_directory_missing files clk path :
  path <> "genesis_core" -> path <> "genesis_core/logs" -> path ∉ files ->
  path ∉ fs (GenesisBootstrap_init "./genesis_core" files clk).
Proof.
  intros H1 H2 H3. cbn [fs GenesisBootstrap_init].
  intros [[?%elem_of_singleton|?%elem_of_singleton]%elem_of_union|?]%elem_of_union;
    done.
Qed.

(** One step of the loop for a phase function whose directory is
    missing. *)
Ltac missing_step st1 Hf1 Hb1 E1 Hf0 Hdir :=
  match goal with
  | H : _ /\ (_ ∉ _ -> _) |- _ =>
      destruct H as [_ [st1 (Hf1 & Hb1 & E1)]];
      [ rewrite Hf0; apply fresh_directory_missing;
        [discriminate | discriminate | exact Hdir]
      | ]
  end.

(** X: phases 2 to 10 are not independent of phase 1.  When phase 1
    fails without making the directories and the four module
    directories are not already there, every later phase fails in turn:
    the run ends with 0 of 10 phases successful, the files are those the
    bootstrap left, the self-test finds its probes false, and the
    summary still reports the self-test as passed. *)
Theorem modules_fail_without_phase_1
    (phase_1 : Executor) (e : PyExc) (files : gset string) (clk : nat -> Z) :
  (forall bootstrap made, phase_1 bootstrap made = (Raises e, made)) ->
  exc_is_Exception e = true ->
  "genesis_core/core" ∉ files ->
  "genesis_core/shared/logger" ∉ files ->
  "genesis_core/shared/database" ∉ files ->
  "genesis_core/api" ∉ files ->
  exists st',
    main phase_1 phase_2_config_management phase_3_logging_system
         phase_4_database_models phase_5_ast_analyzer phase_6_dci_validation
         phase_7_ai_commander phase_8_orchestrator phase_9_injection_engine
         phase_10_dashboard_backend files clk
      = (Val {| phasen_erfolgreich := (0%nat, 10%nat);
                selbsttest := true; gesamtstatus := false |}, st') /\
    fs st' = fs (GenesisBootstrap_init "./genesis_core" files clk) /\
    phase_11_self_test (self st') (fs st') = (Returns (PyBool false), fs st').
Proof.
  intros Hfail He Hcore Hlogger Hdatabase Hapi.
  unfold main, main_phases.
  set (st0 := GenesisBootstrap_init "./genesis_core" files clk).
  assert (Hb0 : GenesisBootstrap.base_path (self st0) = "genesis_core")
    by reflexivity.
  destruct (for_phases_step_raises FILESYSTEM phase_1 st0 e (fs st0)
              (Hfail _ _) He) as (st1 & Hf1 & Hb1 & E1).
  rewrite Hb0 in Hb1.
  write_step CONFIG_MGMT phase_2_config_management
    ("genesis_core" // "core") "config.py" st1 Hb1.
  missing_step st2 Hf2 Hb2 E2 Hf1 Hcore.
  rewrite Hb1 in Hb2. rewrite Hf1 in Hf2.
  write_step LOGGING phase_3_logging_system
    ("genesis_core" // "shared" // "logger") "structured_logger.py" st2 Hb2.
  missing_step st3 Hf3 Hb3 E3 Hf2 Hlogger.
  rewrite Hb2 in Hb3. rewrite Hf2 in Hf3.
  write_step DATABASE phase_4_database_models
    ("genesis_core" // "shared" // "database") "models.py" st3 Hb3.
  missing_step st4 Hf4 Hb4 E4 Hf3 Hdatabase.
  rewrite Hb3 in Hb4. rewrite Hf3 in Hf4.
  write_step ANALYZER phase_5_ast_analyzer
    ("genesis_core" // "core") "analyzer.py" st4 Hb4.
  missing_step st5 Hf5 Hb5 E5 Hf4 Hcore.
  rewrite Hb4 in Hb5. rewrite Hf4 in Hf5.
  write_step QUALITY_GATES phase_6_dci_validation
    ("genesis_core" // "core") "dci.py" st5 Hb5.
  missing_step st6 Hf6 Hb6 E6 Hf5 Hcore.
  rewrite Hb5 in Hb6. rewrite Hf5 in Hf6.
  write_step AI_COMMANDER phase_7_ai_commander
    ("genesis_core" // "core") "ai_commander.py" st6 Hb6.
  missing_step st7 Hf7 Hb7 E7 Hf6 Hcore.
  rewrite Hb6 in Hb7. rewrite Hf6 in Hf7.
  write_step ORCHESTRATOR phase_8_orchestrator
    ("genesis_core" // "core") "orchestrator.py" st7 Hb7.
  missing_step st8 Hf8 Hb8 E8 Hf7 Hcore.
  rewrite Hb7 in Hb8. rewrite Hf7 in Hf8.
  write_step INJECTION_ENGINE phase_9_injection_engine
    ("genesis_core" // "core") "injection_engine.py" st8 Hb8.
  missing_step st9 Hf9 Hb9 E9 Hf8 Hcore.
  rewrite Hb8 in Hb9. rewrite Hf8 in Hf9.
  write_step DASHBOARD phase_10_dashboard_backend
    ("genesis_core" // "api") "server.py" st9 Hb9.
  missing_step st10 Hf10 Hb10 E10 Hf9 Hapi.
  rewrite Hb9 in Hb10. rewrite Hf9 in Hf10.
  destruct (run_from_loop
              [ (FILESYSTEM, phase_1);
                (CONFIG_MGMT, phase_2_config_management);
                (LOGGING, phase_3_logging_system);
                (DATABASE, phase_4_database_models);
                (ANALYZER, phase_5_ast_analyzer);
                (QUALITY_GATES, phase_6_dci_validation);
                (AI_COMMANDER, phase_7_ai_commander);
                (ORCHESTRATOR, phase_8_orchestrator);
                (INJECTION_ENGINE, phase_9_injection_engine);
                (DASHBOARD, phase_10_dashboard_backend) ]
              st0 0%nat st10) as (st' & Hrun & Hf' & Hb').
  { rewrite E1, E2, E3, E4, E5, E6, E7, E8, E9, E10. reflexivity. }
  exists st'. split; [exact Hrun|]. rewrite Hf', Hf10. split; [done|].
  rewrite phase_11_self_test_returns, Hb', Hb10. do 3 f_equal.
  rewrite all_checks_forallb, andb_true_l.
  unfold self_test_checks, path_exists. cbn [forallb snd].
  rewrite (bool_decide_false ("genesis_core" // "core" ∈ fs st0)); [done|].
  apply fresh_directory_missing; [discriminate | discriminate | exact Hcore].
Qed.

Lemma modules_fail_without_phase_1_witness :
  exists st',
    main (fails (OSError "[Errno 13] Permission denied"))
         phase_2_config_management phase_3_logging_system
         phase_4_database_models phase_5_ast_analyzer phase_6_dci_validation
         phase_7_ai_commander phase_8_orchestrator phase_9_injection_engine
         phase_10_dashboard_backend ∅ tick_clock
      = (Val {| phasen_erfolgreich := (0%nat, 10%nat);
                selbsttest := true; gesamtstatus := false |}, st') /\
    fs st' = fs (GenesisBootstrap_init "./genesis_core" ∅ tick_clock) /\
    phase_11_self_test (self st') (fs st') = (Returns (PyBool false), fs st').
Proof.
  apply (modules_fail_without_phase_1
           (fails (OSError "[Errno 13] Permission denied"))
           (OSError "[Errno 13] Permission denied") ∅ tick_clock).
  - reflexivity.
  - reflexivity.
  - compute_done.
  - compute_done.
  - compute_done.
  - compute_done.
Defined.

(** ** The report of [main] *)

Lemma no_slash_app a b : no_slash (a +:+ b) = no_slash a && no_slash b.
Proof.
  induction a as [|c a IH]; [reflexivity|].
  rewrite append_cons. cbn [no_slash]. by rewrite IH, andb_assoc.
Qed.

Lemma report_name_no_slash (strftime : Z -> string) t :
  no_slash (strftime t) = true ->
  no_slash ("reconstruction_report_" +:+ strftime t +:+ ".json") = true.
Proof. intros H. by rewrite !no_slash_app, H. Qed.

(** X: [main], for any ten phase functions that raise nothing but
    [Exception]s.  The loop, the self-test and the totals are always
    reached and leave a complete report: eleven records in the log and
    eleven entries in the report, for the ten registered phases in order
    and the self-test; [total_phases] is 10; the start time is the
    second reading of the clock and the end time the thirty-sixth; no
    metric is recorded.  The export of the report that follows is
    outside any [try]: it adds the report file when the base directory
    is still there, and otherwise [main] ends with an uncaught
    [FileNotFoundError]. *)
Theorem main_report_is_complete
    (strftime : Z -> string)
    (f1 f2 f3 f4 f5 f6 f7 f8 f9 f10 : Executor)
    (files : gset string) (clk : nat -> Z) :
  (forall t, no_slash (strftime t) = true) ->
  Forall raises_only_Exception [f1; f2; f3; f4; f5; f6; f7; f8; f9; f10] ->
  exists s st',
    main f1 f2 f3 f4 f5 f6 f7 f8 f9 f10 files clk = (Val s, st') /\
    map ExecutionLog.phase (logs_of st') =
      [ "FILESYSTEM"; "CONFIG_MGMT"; "LOGGING"; "DATABASE"; "ANALYZER";
        "QUALITY_GATES"; "AI_COMMANDER"; "ORCHESTRATOR"; "INJECTION_ENGINE";
        "DASHBOARD"; "SELF_TEST" ] /\
    dom (phases_of st') =
      list_to_set
        [ "FILESYSTEM"; "CONFIG_MGMT"; "LOGGING"; "DATABASE"; "ANALYZER";
          "QUALITY_GATES"; "AI_COMMANDER"; "ORCHESTRATOR"; "INJECTION_ENGINE";
          "DASHBOARD"; "SELF_TEST" ] /\
    Report.total_phases (report_of st') = Some 10%nat /\
    Report.start_time (report_of st') = clk 1%nat /\
    Report.end_time (report_of st') = Some (clk 35%nat) /\
    Report.metrics (report_of st') = ∅ /\
    GenesisBootstrap.base_path (self st') = "genesis_core" /\
    ("genesis_core" ∈ fs st' ->
     exists st'',
       main_and_export strftime f1 f2 f3 f4 f5 f6 f7 f8 f9 f10 files clk
         = (Val s, st'') /\
       self st'' = self st' /\
       fs st'' = {[ report_path strftime (self st') ]} ∪ fs st') /\
    ("genesis_core" ∉ fs st' ->
     exists st'',
       main_and_export strftime f1 f2 f3 f4 f5 f6 f7 f8 f9 f10 files clk
         = (Exn (FileNotFoundError (report_path strftime (self st'))), st'') /\
       self st'' = self st' /\
       fs st'' = fs st').
Proof.
  intros Hname Hall. unfold main_and_export, main.
  set (st0 := GenesisBootstrap_init "./genesis_core" files clk).
  set (registry := main_phases f1 f2 f3 f4 f5 f6 f7 f8 f9 f10).
  assert (Hreg : Forall (fun pe => raises_only_Exception (snd pe)) registry).
  { unfold registry, main_phases.
    repeat (apply Forall_cons in Hall as [? Hall]).
    repeat (constructor; [done|]). constructor. }
  destruct (run_completes registry st0 Hreg) as (s & st' & Hrun).
  exists s, st'. rewrite Hrun. split; [reflexivity|].
  destruct (run_logs _ _ _ _ Hrun) as (new & Hl & _ & Hnames & _).
  destruct (run_times _ _ _ _ Hrun) as (Hend & _ & _).
  pose proof (run_dom _ _ _ _ Hrun) as Hdom.
  pose proof (run_header registry st0) as (_ & Hbase & _ & Hstart & Hmetrics).
  rewrite Hrun in Hbase, Hstart, Hmetrics. cbn [snd] in Hbase, Hstart, Hmetrics.
  apply run_completed in Hrun as (c & _ & _ & _ & _ & _ & _ & _ & Htotal & _).
  assert (Hb : GenesisBootstrap.base_path (self st') = "genesis_core")
    by exact Hbase.
  split; [rewrite Hl; exact Hnames|].
  split.
  { rewrite Hdom. apply set_eq. intros x.
    rewrite !elem_of_union, elem_of_singleton, !elem_of_list_to_set.
    unfold registry, phase_names, main_phases, phases_of. cbn.
    rewrite dom_empty_L, !elem_of_cons, elem_of_nil, elem_of_empty. tauto. }
  split; [exact Htotal|]. split; [exact Hstart|]. split; [exact Hend|].
  split; [exact Hmetrics|]. split; [exact Hb|].
  unfold report_path. rewrite Hb. split; intros Hdir.
  - rewrite write_text_exists;
      [|by apply report_name_no_slash|exact Hdir].
    eexists. split; [reflexivity|]. split; reflexivity.
  - rewrite write_text_missing;
      [|by apply report_name_no_slash|exact Hdir].
    eexists. split; [reflexivity|]. split; reflexivity.
Qed.


Lemma main_report_is_complete_witness :
  exists s st',
    main (succeeds PyNone) (fails (RuntimeError "boom")) (succeeds PyNone)
         (succeeds PyNone) (succeeds PyNone) (succeeds PyNone)
         (succeeds PyNone) (succeeds PyNone) (succeeds PyNone)
         removes_everything ∅ tick_clock = (Val s, st') /\
    map ExecutionLog.phase (logs_of st') =
      [ "FILESYSTEM"; "CONFIG_MGMT"; "LOGGING"; "DATABASE"; "ANALYZER";
        "QUALITY_GATES"; "AI_COMMANDER"; "ORCHESTRATOR"; "INJECTION_ENGINE";
        "DASHBOARD"; "SELF_TEST" ] /\
    dom (phases_of st') =
      list_to_set
        [ "FILESYSTEM"; "CONFIG_MGMT"; "LOGGING"; "DATABASE"; "ANALYZER";
          "QUALITY_GATES"; "AI_COMMANDER"; "ORCHESTRATOR"; "INJECTION_ENGINE";
          "DASHBOARD"; "SELF_TEST" ] /\
    Report.total_phases (report_of st') = Some 10%nat /\
    Report.start_time (report_of st') = tick_clock 1%nat /\
    Report.end_time (report_of st') = Some (tick_clock 35%nat) /\
    Report.metrics (report_of st') = ∅ /\
    GenesisBootstrap.base_path (self st') = "genesis_core" /\
    ("genesis_core" ∈ fs st' ->
     exists st'',
       main_and_export sample_strftime
         (succeeds PyNone) (fails (RuntimeError "boom")) (succeeds PyNone)
         (succeeds PyNone) (succeeds PyNone) (succeeds PyNone)
         (succeeds PyNone) (succeeds PyNone) (succeeds PyNone)
         removes_everything ∅ tick_clock
         = (Val s, st'') /\
       self st'' = self st' /\
       fs st'' = {[ report_path sample_strftime (self st') ]} ∪ fs st') /\
    ("genesis_core" ∉ fs st' ->
     exists st'',
       main_and_export sample_strftime
         (succeeds PyNone) (fails (RuntimeError "boom")) (succeeds PyNone)
         (succeeds PyNone) (succeeds PyNone) (succeeds PyNone)
         (succeeds PyNone) (succeeds PyNone) (succeeds PyNone)
         removes_everything ∅ tick_clock
         = (Exn (FileNotFoundError
                   (report_path sample_strftime (self st'))), st'') /\
       self st'' = self st' /\
       fs st'' = fs st').
Proof.
  apply (main_report_is_complete sample_strftime
           (succeeds PyNone) (fails (RuntimeError "boom")) (succeeds PyNone)
           (succeeds PyNone) (succeeds PyNone) (succeeds PyNone)
           (succeeds PyNone) (succeeds PyNone) (succeeds PyNone)
           removes_everything ∅ tick_clock).
  - reflexivity.
  - destruct samples_raise_only_Exception as (Hs & Hf & _).
    repeat constructor; auto.
    intros b f e f'. unfold removes_everything. discriminate.
Defined.

(** The export after a phase has removed the base directory, and after
    a run that leaves it in place. *)
Example export_after_removal :
  fst (main_and_export sample_strftime
         (succeeds PyNone) (succeeds PyNone) (succeeds PyNone)
         (succeeds PyNone) (succeeds PyNone) (succeeds PyNone)
         (succeeds PyNone) (succeeds PyNone) (succeeds PyNone)
         removes_everything ∅ tick_clock)
    = Exn (FileNotFoundError
             "genesis_core/reconstruction_report_20240101_120000.json") /\
  fst (main_and_export sample_strftime
         (succeeds PyNone) (succeeds PyNone) (succeeds PyNone)
         (succeeds PyNone) (succeeds PyNone) (succeeds PyNone)
         (succeeds PyNone) (succeeds PyNone) (succeeds PyNone)
         (succeeds PyNone) ∅ tick_clock)
    = Val {| phasen_erfolgreich := (10%nat, 10%nat);
             selbsttest := true; gesamtstatus := true |}.
Proof. split; vm_compute; reflexivity. Qed.

(** ** The phase enumeration *)

Lemma Phase_value_inj p q : Phase_value p = Phase_value q -> p = q.
Proof. destruct p, q; intros H; first [reflexivity | discriminate H]. Qed.

(** X: distinct members of [Phase] have distinct names and distinct
    ordinals, so two different phases never share a key of the report;
    the ordinals lie between 1 and 15. *)
Theorem Phase_members_are_distinct (p q : Phase) :
  (Phase_name p = Phase_name q <-> p = q) /\
  (Phase_value p = Phase_value q <-> p = q) /\
  1 <= Phase_value p <= 15.
Proof.
  split; [split; [apply Phase_name_inj | by intros ->]|].
  split; [split; [apply Phase_value_inj | by intros ->]|].
  destruct p; cbn; lia.
Qed.
